(** * foreman_subnet: the subnet reconciler of ansible-module-foreman

    A shallow embedding of [foreman_subnet.py]: the comparison helpers
    [domains_equal] and [subnets_equal], the reference lookup
    [get_resources], [prepare_data] and the reconciler [ensure], followed by
    the properties the specification states about them.

    Python values are an inductive type of JSON-like values, dictionaries are
    association lists in insertion order, and the calls to the Foreman client
    are threaded through a state-and-failure monad that also records every
    call issued. *)

From Stdlib Require Import List String Ascii ZArith Bool Lia.
Import ListNotations.
Open Scope string_scope.

Set Warnings "-register-all".

(** ** Python values *)

(** The values the module handles: parameters parsed by the host and records
    decoded from the API's JSON. *)
Inductive value : Type :=
| VNone
| VBool (b : bool)
| VInt (z : Z)
| VStr (s : string)
| VList (l : list value)
| VDict (d : list (string * value)).

(** A dictionary with string keys, in insertion order; keys are unique in
    every dictionary built with [dict_set]. *)
Definition dict : Type := list (string * value).

(** The exceptions of the interpreter that the module never catches. *)
Inductive exn : Type :=
| TypeError
| KeyError (key : string)
| IndexError.

(** Outcome of a pure expression that may raise. *)
Inductive res (A : Type) : Type :=
| Val (a : A)
| Exc (e : exn).
Arguments Val {A} a.
Arguments Exc {A} e.

Definition res_bind {A B} (r : res A) (k : A -> res B) : res B :=
  match r with
  | Val a => k a
  | Exc e => Exc e
  end.

Declare Scope res_scope.
Delimit Scope res_scope with res.
Notation "x <- r ;; k" := (res_bind r (fun x => k))
  (at level 61, r at next level, right associativity) : res_scope.

Fixpoint res_map {A B} (f : A -> res B) (l : list A) : res (list B) :=
  match l with
  | [] => Val []
  | x :: xs =>
      (y <- f x ;;
       ys <- res_map f xs ;;
       Val (y :: ys))%res
  end.

(** [d.get(key)], as an option. *)
Fixpoint dict_lookup (d : dict) (key : string) : option value :=
  match d with
  | [] => None
  | (k, v) :: d' => if k =? key then Some v else dict_lookup d' key
  end.

(** [d.get(key, None)]. *)
Definition get (d : dict) (key : string) : value :=
  match dict_lookup d key with
  | Some v => v
  | None => VNone
  end.

(** [d[key]] on a dictionary. *)
Definition subscript (d : dict) (key : string) : res value :=
  match dict_lookup d key with
  | Some v => Val v
  | None => Exc (KeyError key)
  end.

(** [d[key] = v]: the entry is replaced where the key is present and
    appended otherwise. *)
Fixpoint dict_set (d : dict) (key : string) (v : value) : dict :=
  match d with
  | [] => [(key, v)]
  | (k, w) :: d' =>
      if k =? key then (k, v) :: d' else (k, w) :: dict_set d' key v
  end.

(** [key in d]. *)
Definition dict_mem (d : dict) (key : string) : bool :=
  match dict_lookup d key with
  | Some _ => true
  | None => false
  end.

(** Truth value of an object, as [if x:] and [not x] test it. *)
Definition truthy (v : value) : bool :=
  match v with
  | VNone => false
  | VBool b => b
  | VInt z => negb (z =? 0)%Z
  | VStr s => negb (s =? "")
  | VList l => match l with [] => false | _ => true end
  | VDict d => match d with [] => false | _ => true end
  end.

(** Truth value of a record-or-null, the shape of the client's replies. *)
Definition found (r : option dict) : bool :=
  match r with
  | None => false
  | Some d => truthy (VDict d)
  end.

(** [a == b].  Booleans compare equal to the integers 0 and 1, lists
    compare element by element and dictionaries entry by entry whatever the
    insertion order. *)
Fixpoint py_eq (a b : value) {struct a} : bool :=
  match a, b with
  | VNone, VNone => true
  | VBool x, VBool y => Bool.eqb x y
  | VBool x, VInt y => ((if x then 1 else 0) =? y)%Z
  | VInt x, VBool y => (x =? (if y then 1 else 0))%Z
  | VInt x, VInt y => (x =? y)%Z
  | VStr x, VStr y => (x =? y)
  | VList xs, VList ys =>
      (fix go (l : list value) (r : list value) {struct l} : bool :=
         match l, r with
         | [], [] => true
         | x :: l', y :: r' => py_eq x y && go l' r'
         | _, _ => false
         end) xs ys
  | VDict xs, VDict ys =>
      Nat.eqb (List.length xs) (List.length ys) &&
      (fix go (l : list (string * value)) {struct l} : bool :=
         match l with
         | [] => true
         | (k, v) :: l' =>
             match dict_lookup ys k with
             | Some w => py_eq v w && go l'
             | None => false
             end
         end) xs
  | _, _ => false
  end.

(** [iter(v)]: the elements a [for] loop or [map] draws from [v]. *)
Definition py_iter (v : value) : res (list value) :=
  match v with
  | VList l => Val l
  | VStr s => Val (map (fun c => VStr (String c EmptyString)) (list_ascii_of_string s))
  | VDict d => Val (map (fun kv => VStr (fst kv)) d)
  | VNone | VBool _ | VInt _ => Exc TypeError
  end.

(** [v[key]] with a string key on an arbitrary object. *)
Definition item (v : value) (key : string) : res value :=
  match v with
  | VDict d => subscript d key
  | _ => Exc TypeError
  end.

(** [l.sort()]: the list is reordered in place and the call returns [None].
    The list sorted in [domains_equal] is the temporary built by
    [list(map(...))], which nothing else refers to.  The comparisons of the
    sort are not modelled: names are strings, which every interpreter
    orders.  On names that have no order between them ([None], dictionaries,
    a string beside a number) the sort of Python 3 raises [TypeError] where
    this function returns; what is stated below about an answer of
    [domains_equal] is stated for names that are strings, or holds whether
    the sort returns or raises. *)
Definition sort_method (l : list value) : value := VNone.

(** ** The comparison helpers *)

(** [list(map(lambda d: d['name'], v))]. *)
Definition names (v : value) : res (list value) :=
  (xs <- py_iter v ;;
   res_map (fun d => item d "name") xs)%res.

Definition domains_equal (data subnet : dict) : res bool :=
  (dd <- subscript data "domains" ;;
   dn <- names dd ;;
   let data_domains := sort_method dn in
   sd <- subscript subnet "domains" ;;
   sn <- names sd ;;
   let subnet_domains := sort_method sn in
   if negb (py_eq data_domains subnet_domains) then Val false
   else Val true)%res.

Definition comparable_keys : list string :=
  ["name"; "dns_primary"; "dns_secondary"; "gateway"; "ipam"; "boot_mode";
   "mask"; "network"; "vlanid"; "from"; "to"; "tftp_id"; "dns_id";
   "dhcp_id"; "discovery_id"].

(** The comparison the specification documents for an association list:
    the names extracted, sorted, and the two sequences compared. *)
Fixpoint insert_sorted (s : string) (l : list string) : list string :=
  match l with
  | [] => [s]
  | x :: l' => if String.leb s x then s :: l else x :: insert_sorted s l'
  end.

Fixpoint sorted (l : list string) : list string :=
  match l with
  | [] => []
  | x :: l' => insert_sorted x (sorted l')
  end.

Fixpoint name_strings (l : list value) : option (list string) :=
  match l with
  | [] => Some []
  | VDict d :: l' =>
      match dict_lookup d "name", name_strings l' with
      | Some (VStr s), Some ss => Some (s :: ss)
      | _, _ => None
      end
  | _ :: _ => None
  end.

Definition sorted_names_equal (data subnet : dict) : option bool :=
  match dict_lookup data "domains", dict_lookup subnet "domains" with
  | Some (VList dl), Some (VList sl) =>
      match name_strings dl, name_strings sl with
      | Some dn, Some sn =>
          Some (if list_eq_dec string_dec (sorted dn) (sorted sn) then true else false)
      | _, _ => None
      end
  | _, _ => None
  end.

Section Equality.

(** [organizations_equal] and [locations_equal] come from the shared
    utility module [foreman_utils], which is not part of this file; they
    take the desired data and the fetched record and answer a boolean or
    raise. *)
Variable organizations_equal : dict -> dict -> res bool.
Variable locations_equal : dict -> dict -> res bool.

Definition subnets_equal (data subnet : dict) : res bool :=
  if negb (forallb (fun key => py_eq (get data key) (get subnet key))
                   comparable_keys)
  then Val false
  else
    (de <- domains_equal data subnet ;;
     if negb de then Val false else
     oe <- organizations_equal data subnet ;;
     if negb oe then Val false else
     le <- locations_equal data subnet ;;
     if negb le then Val false else
     Val true)%res.

End Equality.

(** ** The module's parameters *)

Inductive state_choice : Type := present | absent.

(** [module.params].  The host fills every key of the argument
    specification declared in [main], with [None] for an argument that was
    not supplied, so [key in module.params] holds for each of them; [str]
    arguments arrive as strings, [list] arguments as lists, [state] as one
    of its two choices. *)
Record params : Type := {
  name : string;
  state : state_choice;
  dns_primary : option string;
  dns_secondary : option string;
  gateway : option string;
  ipam : option string;
  boot_mode : option string;
  mask : option string;
  network : option string;
  vlanid : option string;
  ip_from : option string;
  ip_to : option string;
  domains : option (list value);
  locations : option (list value);
  organizations : option (list value);
  dns_proxy : option string;
  dhcp_proxy : option string;
  tftp_proxy : option string;
  discovery_proxy : option string
}.

Definition of_str (o : option string) : value :=
  match o with
  | Some s => VStr s
  | None => VNone
  end.

Definition of_list (o : option (list value)) : value :=
  match o with
  | Some l => VList l
  | None => VNone
  end.

Definition of_state (s : state_choice) : value :=
  match s with
  | present => VStr "present"
  | absent => VStr "absent"
  end.

(** [module.params] as the dictionary the code indexes (the connection
    parameters, which only the client's constructor reads, are left out). *)
Definition module_params (p : params) : dict :=
  [("name", VStr (name p)); ("state", of_state (state p));
   ("dns_primary", of_str (dns_primary p));
   ("dns_secondary", of_str (dns_secondary p));
   ("gateway", of_str (gateway p)); ("ipam", of_str (ipam p));
   ("boot_mode", of_str (boot_mode p)); ("mask", of_str (mask p));
   ("network", of_str (network p)); ("vlanid", of_str (vlanid p));
   ("ip_from", of_str (ip_from p)); ("ip_to", of_str (ip_to p));
   ("domains", of_list (domains p));
   ("locations", of_list (locations p));
   ("organizations", of_list (organizations p));
   ("dns_proxy", of_str (dns_proxy p)); ("dhcp_proxy", of_str (dhcp_proxy p));
   ("tftp_proxy", of_str (tftp_proxy p));
   ("discovery_proxy", of_str (discovery_proxy p))].

(** The elements of a parameter of type [list]. *)
Definition elements (v : value) : list value :=
  match v with
  | VList l => l
  | _ => []
  end.

(** ** The Foreman client *)

(** What a call to the client yields: a record or [None], or a raised
    [ForemanError] with its message. *)
Inductive reply : Type :=
| Returned (r : option dict)
| ForemanError (message : string).

(** Modelled from the spec: the client library (python-foreman) is an
    external collaborator, consumed through search, get, create, update and
    delete.  Searching and getting read the remote system and leave it as it
    is; create, update and delete may change it.  [R] is the state of the
    remote system. *)
Record Foreman (R : Type) : Type := {
  search_subnet : dict -> R -> reply;
  get_subnet : value -> R -> reply;
  search_resource : string -> dict -> R -> reply;
  create_subnet : dict -> R -> reply * R;
  delete_subnet : value -> R -> reply * R;
  update_subnet : value -> dict -> R -> reply * R
}.
Arguments search_subnet {R}.
Arguments get_subnet {R}.
Arguments search_resource {R}.
Arguments create_subnet {R}.
Arguments delete_subnet {R}.
Arguments update_subnet {R}.

(** The calls an invocation issues, in the order it issues them. *)
Inductive call : Type :=
| SearchSubnet (data : dict)
| GetSubnet (id : value)
| SearchResource (resource_type : string) (data : dict)
| CreateSubnet (data : dict)
| DeleteSubnet (id : value)
| UpdateSubnet (id : value) (data : dict).

Definition mutating (c : call) : bool :=
  match c with
  | CreateSubnet _ | DeleteSubnet _ | UpdateSubnet _ _ => true
  | SearchSubnet _ | GetSubnet _ | SearchResource _ _ => false
  end.

(** The argument of [module.fail_json(msg=...)]: a format string and the
    arguments [str.format] is applied to, positional ones under their
    index. *)
Inductive message : Type :=
| Format (template : string) (args : list (string * value)).

(** How a computation ends: it returns, it leaves through
    [module.fail_json] (which exits the process), or an exception nobody
    catches goes up. *)
Inductive outcome (A : Type) : Type :=
| Return (a : A)
| FailJson (msg : message)
| Uncaught (e : exn).
Arguments Return {A} a.
Arguments FailJson {A} msg.
Arguments Uncaught {A} e.

Definition is_fetch (c : call) : bool :=
  match c with
  | SearchSubnet _ | GetSubnet _ => true
  | _ => false
  end.

Definition is_lookup (c : call) : bool :=
  match c with
  | SearchResource _ _ => true
  | _ => false
  end.

Definition is_read (c : call) : bool := negb (mutating c).

(** [all_before P Q cs]: in [cs], every call satisfying [P] is issued
    before every call satisfying [Q] (once a [Q] call is seen, no [P] call
    follows). *)
Fixpoint all_before (P Q : call -> bool) (cs : list call) : bool :=
  match cs with
  | [] => true
  | c :: cs' =>
      (if Q c then forallb (fun c' => negb (P c')) cs' else true)
      && all_before P Q cs'
  end.

(** The failure [get_resources] reports for a reference it does not
    find. *)
Definition not_found_message (resource_type : string) (spec : value)
    : message :=
  Format "Could not find resource type {resource_type} defined as {spec}"
         [("resource_type", VStr resource_type); ("spec", spec)].

Definition search_failed_message (resource_type : string) (spec : value)
    (error : string) : message :=
  Format "Could not search resource type {resource_type} defined as {spec}: {error}"
         [("resource_type", VStr resource_type); ("spec", spec);
          ("error", VStr error)].

(** The named references of an invocation, as (resource type, name) pairs
    in the order [ensure] looks them up: organizations, locations, domains,
    then the dns, dhcp, tftp and discovery proxies. *)
Definition proxy_reference (p : params) (proxy_type : string)
    : list (string * value) :=
  if truthy (get (module_params p) (proxy_type ++ "_proxy"))
  then [("smart_proxies", get (module_params p) (proxy_type ++ "_proxy"))]
  else [].

Definition references (p : params) : list (string * value) :=
  (if truthy (of_list (organizations p))
   then map (pair "organizations") (elements (of_list (organizations p)))
   else [])
  ++ (if truthy (of_list (locations p))
      then map (pair "locations") (elements (of_list (locations p)))
      else [])
  ++ (if truthy (of_list (domains p))
      then map (pair "domains") (elements (of_list (domains p)))
      else [])
  ++ flat_map (proxy_reference p) ["dns"; "dhcp"; "tftp"; "discovery"].

(** The data prepared for an invocation without domains carries [None]
    under ['domains']. *)
Definition domains_kept (p : params) (data : dict) : Prop :=
  domains p = None -> dict_lookup data "domains" = Some VNone.

(** ** The reconciler *)

Section Reconciler.

Variable R : Type.
Variable theforeman : Foreman R.
Variable organizations_equal : dict -> dict -> res bool.
Variable locations_equal : dict -> dict -> res bool.

(** The remote system and the calls issued so far. *)
Record world : Type := World { remote : R; calls : list call }.

Definition M (A : Type) : Type := world -> outcome A * world.

Definition ret {A} (a : A) : M A := fun w => (Return a, w).

Definition bind {A B} (m : M A) (k : A -> M B) : M B :=
  fun w =>
    match m w with
    | (Return a, w') => k a w'
    | (FailJson msg, w') => (FailJson msg, w')
    | (Uncaught e, w') => (Uncaught e, w')
    end.

Definition fail_json {A} (msg : message) : M A := fun w => (FailJson msg, w).

Definition lift {A} (r : res A) : M A :=
  fun w =>
    match r with
    | Val a => (Return a, w)
    | Exc e => (Uncaught e, w)
    end.

(** A call that reads the remote system. *)
Definition read (c : call) (f : R -> reply) : M reply :=
  fun w => (Return (f (remote w)), World (remote w) (calls w ++ [c])).

(** A call that may change it. *)
Definition write (c : call) (f : R -> reply * R) : M reply :=
  fun w =>
    let (r, s) := f (remote w) in
    (Return r, World s (calls w ++ [c])).

Notation "x <- m ;; k" := (bind m (fun x => k))
  (at level 61, m at next level, right associativity).

(** [resource.get('id')] on a record-or-null that tested true. *)
Definition get_id (r : option dict) : value :=
  match r with
  | Some d => get d "id"
  | None => VNone
  end.

Definition search_data_of (item : value) : dict :=
  match item with
  | VDict d => fold_left (fun sd kv => dict_set sd (fst kv) (snd kv)) d []
  | _ => [("name", item)]
  end.

(** The loop of [get_resources], with [result] as built so far. *)
Fixpoint get_resources_loop (resource_type : string)
    (resource_specs : list value) (result : list dict) : M (list dict) :=
  match resource_specs with
  | [] => ret result
  | item :: rest =>
      let search_data := search_data_of item in
      r <- read (SearchResource resource_type search_data)
                (search_resource theforeman resource_type search_data) ;;
      match r with
      | ForemanError e =>
          fail_json
            (Format "Could not search resource type {resource_type} defined as {spec}: {error}"
                    [("resource_type", VStr resource_type); ("spec", item);
                     ("error", VStr e)])
      | Returned resource =>
          match resource with
          | Some d =>
              if negb (truthy (VDict d)) then
                fail_json
                  (Format "Could not find resource type {resource_type} defined as {spec}"
                          [("resource_type", VStr resource_type); ("spec", item)])
              else get_resources_loop resource_type rest (result ++ [d])
          | None =>
              fail_json
                (Format "Could not find resource type {resource_type} defined as {spec}"
                        [("resource_type", VStr resource_type); ("spec", item)])
          end
      end
  end.

Definition get_resources (resource_type : string)
    (resource_specs : list value) : M (list dict) :=
  get_resources_loop resource_type resource_specs [].

(** Modelled from the spec: [get_organization_ids] and [get_location_ids]
    belong to the shared utility module [foreman_utils], which is missing
    here.  Each named organization (location) is searched by name; one that
    is not found ends the invocation with the not-found failure naming the
    resource type and the name; the result lists the identifiers found. *)
Definition get_organization_ids (organizations : list value) : M value :=
  rs <- get_resources "organizations" organizations ;;
  ret (VList (map (fun r => get r "id") rs)).

Definition get_location_ids (locations : list value) : M value :=
  rs <- get_resources "locations" locations ;;
  ret (VList (map (fun r => get r "id") rs)).

(** One round of the loop over the proxy types in [prepare_data]. *)
Definition prepare_proxy (p : params) (data : dict) (proxy_type : string)
    : M dict :=
  let key := proxy_type ++ "_proxy" in
  if dict_mem (module_params p) key then
    let id_key := proxy_type ++ "_id" in
    if truthy (get (module_params p) key) then
      rs <- get_resources "smart_proxies" [get (module_params p) key] ;;
      match rs with
      | r :: _ => ret (dict_set data id_key (get r "id"))
      | [] => lift (Exc IndexError)
      end
    else ret (dict_set data id_key VNone)
  else ret data.

Fixpoint prepare_proxies (p : params) (data : dict)
    (proxy_types : list string) : M dict :=
  match proxy_types with
  | [] => ret data
  | proxy_type :: rest =>
      data' <- prepare_proxy p data proxy_type ;;
      prepare_proxies p data' rest
  end.

Definition prepare_data (data : dict) (p : params) : M dict :=
  let data :=
    fold_left
      (fun data key =>
         if dict_mem (module_params p) key
         then dict_set data key (get (module_params p) key)
         else data)
      ["dns_primary"; "dns_secondary"; "gateway"; "ipam"; "boot_mode";
       "mask"; "network"; "vlanid"; "domains"]
      data in
  let data :=
    if dict_mem (module_params p) "ip_from"
    then dict_set data "from" (get (module_params p) "ip_from") else data in
  let data :=
    if dict_mem (module_params p) "ip_to"
    then dict_set data "to" (get (module_params p) "ip_to") else data in
  data <-
    (if dict_mem (module_params p) "domains"
        && truthy (get (module_params p) "domains")
     then
       rs <- get_resources "domains"
               (elements (get (module_params p) "domains")) ;;
       ret (dict_set data "domains" (VList (map VDict rs)))
     else ret data) ;;
  prepare_proxies p data ["dns"; "dhcp"; "tftp"; "discovery"].

(** The [try] block of [ensure] that fetches the subnet: a search by
    name, then the full record by identifier. *)
Definition current_subnet (data : dict) : M (option dict) :=
  r <- read (SearchSubnet data) (search_subnet theforeman data) ;;
  match r with
  | ForemanError e =>
      fail_json (Format "Could not get subnet: {0}" [("0", VStr e)])
  | Returned subnet =>
      if found subnet then
        r' <- read (GetSubnet (get_id subnet))
                   (get_subnet theforeman (get_id subnet)) ;;
        match r' with
        | ForemanError e =>
            fail_json (Format "Could not get subnet: {0}" [("0", VStr e)])
        | Returned subnet' => ret subnet'
        end
      else ret subnet
  end.

(** The lines of [ensure] that complete [data]: the identifiers of the
    organizations and locations, then [prepare_data]. *)
Definition desired_data (p : params) (data : dict) : M dict :=
  data <-
    (if truthy (of_list (organizations p)) then
       ids <- get_organization_ids (elements (of_list (organizations p))) ;;
       ret (dict_set data "organization_ids" ids)
     else ret data) ;;
  data <-
    (if truthy (of_list (locations p)) then
       ids <- get_location_ids (elements (of_list (locations p))) ;;
       ret (dict_set data "location_ids" ids)
     else ret data) ;;
  prepare_data data p.

(** The rest of [ensure]: the decision and the one call that applies
    it. *)
Definition converge (p : params) (subnet : option dict) (data : dict)
    : M (bool * option dict) :=
  if negb (found subnet) && py_eq (of_state (state p)) (VStr "present") then
    r <- write (CreateSubnet data) (create_subnet theforeman data) ;;
    match r with
    | Returned subnet' => ret (true, subnet')
    | ForemanError e =>
        fail_json (Format "Could not create subnet: {0}" [("0", VStr e)])
    end
  else
    match subnet with
    | Some record =>
        if truthy (VDict record) then
          if py_eq (of_state (state p)) (VStr "absent") then
            r <- write (DeleteSubnet (get record "id"))
                       (delete_subnet theforeman (get record "id")) ;;
            match r with
            | Returned subnet' => ret (true, subnet')
            | ForemanError e =>
                fail_json
                  (Format "Could not delete subnet: {0}" [("0", VStr e)])
            end
          else
            eq <- lift (subnets_equal organizations_equal locations_equal
                                      data record) ;;
            if negb eq then
              r <- write (UpdateSubnet (get record "id") data)
                         (update_subnet theforeman (get record "id") data) ;;
              match r with
              | Returned subnet' => ret (true, subnet')
              | ForemanError e =>
                  fail_json
                    (Format "Could not update subnet: {0}" [("0", VStr e)])
              end
            else ret (false, subnet)
        else ret (false, subnet)
    | None => ret (false, subnet)
    end.

(** [ensure(module)].  [init_foreman_client] only builds the client
    object from the connection parameters. *)
Definition ensure (p : params) : M (bool * option dict) :=
  let data := [("name", VStr (name p))] in
  subnet <- current_subnet data ;;
  data <- desired_data p data ;;
  converge p subnet data.

(** An invocation starts on the remote system with no call issued. *)
Definition run (p : params) (s : R) : outcome (bool * option dict) * world :=
  ensure p (World s []).

(** *** Vocabulary of the properties *)

(** The search-by-name of a reference on the remote system [s]. *)
Definition lookup (s : R) (ref : string * value) : reply :=
  search_resource theforeman (fst ref) (search_data_of (snd ref)) s.

Definition resolved (s : R) (ref : string * value) : Prop :=
  exists d, lookup s ref = Returned (Some d) /\ truthy (VDict d) = true.

Definition unresolved (s : R) (ref : string * value) : Prop :=
  exists r, lookup s ref = Returned r /\ found r = false.

(** No read of the client raises [ForemanError] on [s]. *)
Definition reads_return (s : R) : Prop :=
  (forall data, exists r, search_subnet theforeman data s = Returned r)
  /\ (forall id, exists r, get_subnet theforeman id s = Returned r)
  /\ (forall resource_type data,
        exists r, search_resource theforeman resource_type data s = Returned r).


(** [msg] is what looking [ref] up fails with. *)
Definition failed_lookup (s : R) (msg : message) (ref : string * value)
    : Prop :=
  (unresolved s ref /\ msg = not_found_message (fst ref) (snd ref))
  \/ (exists e, lookup s ref = ForemanError e
                /\ msg = search_failed_message (fst ref) (snd ref) e).

(** How a computation that looks the references [refs] up in order ends:
    it returns when all of them are resolved, and otherwise fails with the
    message of one of them. *)
Definition lookup_outcome (s : R) (refs : list (string * value)) {A}
    (ok : A -> Prop) (o : outcome A) : Prop :=
  match o with
  | Return a => ok a /\ Forall (resolved s) refs
  | FailJson msg => Exists (failed_lookup s msg) refs
  | Uncaught _ => False
  end.

(** [reading s P m Q]: run on the remote system [s], [m] leaves it as it
    is, issues only calls satisfying [P], and ends in an outcome
    satisfying [Q]. *)
Definition reading (s : R) (P : call -> bool) {A} (m : M A)
    (Q : outcome A -> Prop) : Prop :=
  forall w, remote w = s ->
    remote (snd (m w)) = s
    /\ (exists cs : list call, calls (snd (m w)) = (calls w ++ cs)%list /\ forallb P cs = true)
    /\ Q (fst (m w)).

End Reconciler.

Arguments remote {R} w.
Arguments calls {R} w.
Arguments World {R} remote calls.

(** ** An in-memory remote system

    A stand-in for the Foreman server and its client, on which the
    reconciler can be run: the subnets it holds, the resources that can be
    referred to by name (with their resource type), and the next identifier
    to hand out.  A created subnet is stored as the data sent plus its
    identifier; an update overwrites the entries sent. *)
Module Memory.

Record store : Type := Store {
  subnets : list dict;
  resources : list (string * dict);
  next_id : Z
}.

Definition by_name (data : dict) (r : dict) : bool :=
  py_eq (get r "name") (get data "name").

Definition by_id (id : value) (r : dict) : bool :=
  py_eq (get r "id") id.

Definition merge (r data : dict) : dict :=
  fold_left (fun acc kv => dict_set acc (fst kv) (snd kv)) data r.

Definition client : Foreman store := {|
  search_subnet := fun data s => Returned (find (by_name data) (subnets s));
  get_subnet := fun id s => Returned (find (by_id id) (subnets s));
  search_resource := fun resource_type data s =>
    Returned
      (option_map snd
         (find (fun tr => (fst tr =? resource_type) && by_name data (snd tr))
               (resources s)));
  create_subnet := fun data s =>
    let r := dict_set data "id" (VInt (next_id s)) in
    (Returned (Some r),
     Store (subnets s ++ [r]) (resources s) (next_id s + 1));
  delete_subnet := fun id s =>
    match find (by_id id) (subnets s) with
    | Some r =>
        (Returned (Some r),
         Store (filter (fun x => negb (by_id id x)) (subnets s))
               (resources s) (next_id s))
    | None => (ForemanError "404 Not Found", s)
    end;
  update_subnet := fun id data s =>
    match find (by_id id) (subnets s) with
    | Some r =>
        (Returned (Some (merge r data)),
         Store (map (fun x => if by_id id x then merge x data else x)
                    (subnets s))
               (resources s) (next_id s))
    | None => (ForemanError "404 Not Found", s)
    end
|}.

(** A stand-in for [organizations_equal] and [locations_equal]: where the
    data carries identifiers under [ids_key], they are compared with the
    identifiers of the records the subnet lists under [assoc_key]. *)
Definition ids_equal (ids_key assoc_key : string) (data subnet : dict)
    : res bool :=
  match dict_lookup data ids_key with
  | None => Val true
  | Some ids =>
      match dict_lookup subnet assoc_key with
      | None => Val false
      | Some l =>
          (xs <- py_iter l ;;
           ys <- res_map (fun d => item d "id") xs ;;
           Val (py_eq ids (VList ys)))%res
      end
  end.

Definition run_ensure (p : params) (s : store)
    : outcome (bool * option dict) * world store :=
  run store client (ids_equal "organization_ids" "organizations")
      (ids_equal "location_ids" "locations") p s.

(** The subnet of the module's documentation, reduced to its name,
    network and mask. *)
Definition my_subnet (st : state_choice) (doms : option (list value))
    : params := {|
  name := "MySubnet"; state := st;
  dns_primary := None; dns_secondary := None; gateway := None;
  ipam := None; boot_mode := Some "DHCP";
  mask := Some "255.255.255.0"; network := Some "192.168.123.0";
  vlanid := None; ip_from := None; ip_to := None;
  domains := doms; locations := None; organizations := None;
  dns_proxy := None; dhcp_proxy := None; tftp_proxy := None;
  discovery_proxy := None
|}.

Definition domain (id : Z) (n : string) : dict :=
  [("id", VInt id); ("name", VStr n)].

(** A server that knows one domain and one smart proxy and holds no
    subnet. *)
Definition empty_server : store :=
  Store [] [("domains", domain 1 "foo.example.com");
            ("smart_proxies", domain 7 "proxy.example.com")] 1.

(** The same server holding a subnet named MySubnet, of which only the
    name, the identifier and the (empty) domains are recorded. *)
Definition existing_subnet : dict :=
  [("id", VInt 1); ("name", VStr "MySubnet"); ("domains", VList [])].

Definition busy_server : store :=
  Store [existing_subnet] (resources empty_server) 2.

Definition with_domain : option (list value) :=
  Some [VStr "foo.example.com"].

(** The documented subnet with one domain and a DNS proxy. *)
Definition proxied_subnet : params := {|
  name := "MySubnet"; state := present;
  dns_primary := None; dns_secondary := None; gateway := None;
  ipam := None; boot_mode := Some "DHCP";
  mask := Some "255.255.255.0"; network := Some "192.168.123.0";
  vlanid := None; ip_from := Some "192.168.123.3";
  ip_to := Some "192.168.123.253";
  domains := with_domain; locations := None; organizations := None;
  dns_proxy := Some "proxy.example.com"; dhcp_proxy := None;
  tftp_proxy := Some ""; discovery_proxy := None
|}.

Definition prepare (p : params) : outcome dict * world store :=
  prepare_data store client [("name", VStr (name p))] p (World empty_server []).

(** A client whose account may read but not write: create, update and
    delete raise. *)
Definition refusing : Foreman store := {|
  search_subnet := search_subnet client;
  get_subnet := get_subnet client;
  search_resource := search_resource client;
  create_subnet := fun data s => (ForemanError "403 Forbidden", s);
  delete_subnet := fun id s => (ForemanError "403 Forbidden", s);
  update_subnet := fun id data s => (ForemanError "403 Forbidden", s)
|}.


Definition run_on (c : Foreman store) (p : params) (s : store)
    : outcome (bool * option dict) * world store :=
  run store c (ids_equal "organization_ids" "organizations")
      (ids_equal "location_ids" "locations") p s.

(** The server as the creation of the documented subnet, asked for
    without domains, leaves it. *)
Definition synced_server : store :=
  Eval vm_compute in
    remote (snd (run_ensure (my_subnet present None) empty_server)).

Definition unknown_domain : option (list value) :=
  Some [VStr "bar.example.com"].



End Memory.

(** ** Vocabulary of the further properties *)

(** The search a reference is looked up with. *)
Definition search_call (ref : string * value) : call :=
  SearchResource (fst ref) (search_data_of (snd ref)).

(** The search of [ref] on [s] returns the record [r], which tests true. *)
Definition found_by {R : Type} (theforeman : Foreman R) (s : R)
    (ref : string * value) (r : dict) : Prop :=
  search_resource theforeman (fst ref) (search_data_of (snd ref)) s
  = Returned (Some r)
  /\ truthy (VDict r) = true.

(** The parameters [prepare_data] copies under their own key. *)
Definition scalar_keys : list string :=
  ["dns_primary"; "dns_secondary"; "gateway"; "ipam"; "boot_mode"; "mask";
   "network"; "vlanid"].

(** The objects [lambda d: d['name']] accepts. *)
Definition has_name (v : value) : bool :=
  match v with
  | VDict d => dict_mem d "name"
  | _ => false
  end.

(** The dictionaries whose name is a string. *)
Definition has_string_name (v : value) : bool :=
  match v with
  | VDict d =>
      match dict_lookup d "name" with
      | Some (VStr _) => true
      | _ => false
      end
  | _ => false
  end.

(** The records whose ['domains'] entry is a list of dictionaries named by
    strings, as the API returns them and [get_resources] collects them. *)
Definition string_named_domains (d : dict) : bool :=
  match dict_lookup d "domains" with
  | Some (VList l) => forallb has_string_name l
  | _ => false
  end.

(** The records on whose ['domains'] entry [list(map(lambda d: d['name'],
    ...))] goes through: a list of dictionaries with a name, or an empty
    string or dictionary (which iterate over nothing). *)
Definition named_domains (d : dict) : bool :=
  match dict_lookup d "domains" with
  | Some (VList l) => forallb has_name l
  | Some (VStr s) => s =? ""
  | Some (VDict e) => match e with [] => true | _ => false end
  | _ => false
  end.

(** What the prepared data carries under [proxy_type]_id: the identifier of
    the proxy found by the name given, or [None] when no name (or an empty
    one) was given. *)
Definition proxy_id_sent {R : Type} (theforeman : Foreman R) (s : R)
    (p : params) (data : dict) (proxy_type : string) : Prop :=
  if truthy (get (module_params p) (proxy_type ++ "_proxy")) then
    exists r,
      found_by theforeman s
        ("smart_proxies", get (module_params p) (proxy_type ++ "_proxy")) r
      /\ dict_lookup data (proxy_type ++ "_id") = Some (get r "id")
  else dict_lookup data (proxy_type ++ "_id") = Some VNone.

(** The mutating calls an invocation may send for a state. *)
Definition allowed_write (st : state_choice) (c : call) : bool :=
  match c, st with
  | CreateSubnet _, present | UpdateSubnet _ _, present => true
  | DeleteSubnet _, absent => true
  | SearchSubnet _, _ | GetSubnet _, _ | SearchResource _ _, _ => true
  | _, _ => false
  end.

(** The data a mutating call sends is filed under [name]. *)
Definition sends_name (n : string) (c : call) : Prop :=
  match c with
  | CreateSubnet data | UpdateSubnet _ data =>
      dict_lookup data "name" = Some (VStr n)
  | _ => True
  end.

(** The keys [prepare_data] writes. *)
Definition prepared_keys : list string :=
  scalar_keys ++ ["domains"; "from"; "to"; "dns_id"; "dhcp_id"; "tftp_id";
                  "discovery_id"].

(** The failure reported when fetching the subnet raises. *)
Definition fetch_failure (e : string) : message :=
  Format "Could not get subnet: {0}" [("0", VStr e)].

(** The failure reported when the mutating call [c] raises. *)
Definition write_failure (c : call) (e : string) : message :=
  Format (match c with
          | CreateSubnet _ => "Could not create subnet: {0}"
          | DeleteSubnet _ => "Could not delete subnet: {0}"
          | UpdateSubnet _ _ => "Could not update subnet: {0}"
          | _ => ""
          end)
         [("0", VStr e)].

(** The data a create or an update sends is [data]. *)
Definition carries (data : dict) (c : call) : Prop :=
  match c with
  | CreateSubnet d | UpdateSubnet _ d => d = data
  | _ => True
  end.

(** * Properties *)

(** ** The comparison helpers *)

Lemma sort_method_None (l : list value) : sort_method l = VNone.
Proof. reflexivity. Qed.

(** Whatever the names are, [domains_equal] answers [True] when it
    answers: both operands of its comparison are the [None] that
    [sort()] returns. *)
Lemma domains_equal_true (data subnet : dict) (b : bool) :
  domains_equal data subnet = Val b -> b = true.
Proof.
  unfold domains_equal, res_bind.
  destruct (subscript data "domains") as [dd|]; [|discriminate].
  destruct (names dd) as [dn|]; [|discriminate].
  destruct (subscript subnet "domains") as [sd|]; [|discriminate].
  destruct (names sd) as [sn|]; [|discriminate].
  rewrite !sort_method_None. simpl. congruence.
Qed.

(** [domains_equal] reads nothing but the two ['domains'] entries. *)
Lemma domains_equal_reads_domains (data data' subnet subnet' : dict) :
  dict_lookup data "domains" = dict_lookup data' "domains" ->
  dict_lookup subnet "domains" = dict_lookup subnet' "domains" ->
  domains_equal data subnet = domains_equal data' subnet'.
Proof.
  intros Hd Hs. unfold domains_equal, subscript. now rewrite Hd, Hs.
Qed.

(** C1 (the code at the failing input): a desired record whose one domain
    is named a.example.com and a remote record whose one domain is named
    b.example.com have different sorted name lists, and [domains_equal]
    answers [True] for them. *)
Theorem domains_equal_differing_names :
  domains_equal
    [("domains", VList [VDict (Memory.domain 1 "a.example.com")])]
    [("domains", VList [VDict (Memory.domain 2 "b.example.com")])]
  = Val true
  /\ sorted_names_equal
       [("domains", VList [VDict (Memory.domain 1 "a.example.com")])]
       [("domains", VList [VDict (Memory.domain 2 "b.example.com")])]
     = Some false.
Proof. split; reflexivity. Qed.

Section EqualityFacts.

Variable organizations_equal : dict -> dict -> res bool.
Variable locations_equal : dict -> dict -> res bool.

Lemma scalars_differ (data subnet : dict) (key : string) :
  In key comparable_keys ->
  py_eq (get data key) (get subnet key) = false ->
  forallb (fun key => py_eq (get data key) (get subnet key)) comparable_keys
  = false.
Proof.
  intros Hin Hne.
  destruct (forallb _ comparable_keys) eqn:Hall; [|reflexivity].
  rewrite forallb_forall in Hall. specialize (Hall key Hin). congruence.
Qed.

Lemma scalars_agree (data data' subnet subnet' : dict) :
  (forall key, In key comparable_keys ->
               get data key = get data' key /\ get subnet key = get subnet' key) ->
  forallb (fun key => py_eq (get data key) (get subnet key)) comparable_keys
  = forallb (fun key => py_eq (get data' key) (get subnet' key)) comparable_keys.
Proof.
  intros H. induction comparable_keys as [|k ks IH]; [reflexivity|].
  simpl. destruct (H k (or_introl eq_refl)) as [-> ->].
  f_equal. apply IH. intros key Hin. apply H. now right.
Qed.

(** C9: [subnets_equal] answers [False] as soon as the desired data and
    the remote record differ on one of the fifteen keys of
    [comparable_keys] (name, dns_primary, dns_secondary, gateway, ipam,
    boot_mode, mask, network, vlanid, from, to, tftp_id, dns_id, dhcp_id,
    discovery_id), and its answer is the same for two pairs of records
    that agree on these keys, on their ['domains'] entries and on the
    answers of the organization and location comparisons: nothing else in
    the records is read. *)
Theorem subnets_equal_fixed_fields :
  (forall data subnet key,
      In key comparable_keys ->
      py_eq (get data key) (get subnet key) = false ->
      subnets_equal organizations_equal locations_equal data subnet = Val false)
  /\ (forall data data' subnet subnet',
        (forall key, In key comparable_keys ->
                     get data key = get data' key
                     /\ get subnet key = get subnet' key) ->
        dict_lookup data "domains" = dict_lookup data' "domains" ->
        dict_lookup subnet "domains" = dict_lookup subnet' "domains" ->
        organizations_equal data subnet = organizations_equal data' subnet' ->
        locations_equal data subnet = locations_equal data' subnet' ->
        subnets_equal organizations_equal locations_equal data subnet
        = subnets_equal organizations_equal locations_equal data' subnet').
Proof.
  unfold subnets_equal. split.
  - intros data subnet key Hin Hne.
    now rewrite (scalars_differ data subnet key Hin Hne).
  - intros data data' subnet subnet' Hk Hd Hs Ho Hl.
    rewrite (scalars_agree data data' subnet subnet' Hk).
    rewrite (domains_equal_reads_domains data data' subnet subnet' Hd Hs).
    now rewrite Ho, Hl.
Qed.

End EqualityFacts.

(** ** Calls and outcomes of the read phase *)

Section ReadPhase.

Variable R : Type.
Variable theforeman : Foreman R.

Lemma reading_ret (s : R) (P : call -> bool) {A} (a : A)
    (Q : outcome A -> Prop) :
  Q (Return a) -> reading R s P (ret R a) Q.
Proof.
  intros HQ w Hw. simpl. repeat split; auto.
  exists []. now rewrite app_nil_r.
Qed.

Lemma reading_fail_json (s : R) (P : call -> bool) {A} (msg : message)
    (Q : outcome A -> Prop) :
  Q (FailJson msg) -> reading R s P (fail_json R msg) Q.
Proof.
  intros HQ w Hw. simpl. repeat split; auto.
  exists []. now rewrite app_nil_r.
Qed.

Lemma reading_lift (s : R) (P : call -> bool) {A} (r : res A)
    (Q : outcome A -> Prop) :
  Q (match r with Val a => Return a | Exc e => Uncaught e end) ->
  reading R s P (lift R r) Q.
Proof.
  intros HQ w Hw. unfold lift. destruct r; simpl; repeat split; auto;
    exists []; now rewrite app_nil_r.
Qed.

Lemma reading_read (s : R) (P : call -> bool) (c : call) (f : R -> reply)
    (Q : outcome reply -> Prop) :
  P c = true -> Q (Return (f s)) -> reading R s P (read R c f) Q.
Proof.
  intros HP HQ w Hw. unfold read. simpl. subst s. repeat split; auto.
  exists [c]. split; [reflexivity|]. simpl. now rewrite HP.
Qed.

Lemma reading_bind (s : R) (P : call -> bool) {A B} (m : M R A)
    (k : A -> M R B) (Qm : outcome A -> Prop) (Q : outcome B -> Prop) :
  reading R s P m Qm ->
  (forall a, Qm (Return a) -> reading R s P (k a) Q) ->
  (forall msg, Qm (FailJson msg) -> Q (FailJson msg)) ->
  (forall e, Qm (Uncaught e) -> Q (Uncaught e)) ->
  reading R s P (bind R m k) Q.
Proof.
  intros Hm Hk Hf He w Hw. unfold bind.
  destruct (Hm w Hw) as (Hr & (cs & Hcs & HP) & HQ).
  destruct (m w) as [[a|msg|e] w1]; simpl in *.
  - destruct (Hk a HQ w1 Hr) as (Hr' & (cs' & Hcs' & HP') & HQ').
    repeat split; auto.
    exists (cs ++ cs')%list. rewrite Hcs', Hcs, app_assoc. split; [reflexivity|].
    rewrite forallb_app, HP, HP'. reflexivity.
  - repeat split; eauto.
  - repeat split; eauto.
Qed.

Lemma reading_weaken (s : R) (P P' : call -> bool) {A} (m : M R A)
    (Q Q' : outcome A -> Prop) :
  (forall c, P c = true -> P' c = true) ->
  (forall o, Q o -> Q' o) ->
  reading R s P m Q -> reading R s P' m Q'.
Proof.
  intros HP HQ Hm w Hw.
  destruct (Hm w Hw) as (Hr & (cs & Hcs & Hall) & Ho).
  repeat split; auto.
  exists cs. split; [assumption|].
  rewrite forallb_forall in *. auto.
Qed.

(** Sequencing two lookups: the references of the first, then those of
    the second. *)
Lemma reading_lookups_bind (s : R) {A B} (m : M R A) (k : A -> M R B)
    (refs1 refs2 : list (string * value)) (ok1 : A -> Prop)
    (ok2 : B -> Prop) :
  reading R s is_lookup m (lookup_outcome R theforeman s refs1 ok1) ->
  (forall a, ok1 a ->
     reading R s is_lookup (k a) (lookup_outcome R theforeman s refs2 ok2)) ->
  reading R s is_lookup (bind R m k)
          (lookup_outcome R theforeman s (refs1 ++ refs2) ok2).
Proof.
  intros Hm Hk.
  apply reading_bind with (Qm := lookup_outcome R theforeman s refs1 ok1);
    [assumption| | |].
  - intros a [Hok Hres].
    apply reading_weaken with (P := is_lookup)
      (Q := lookup_outcome R theforeman s refs2 ok2); auto.
    intros [b|msg|e]; simpl; [| |auto].
    + intros [Hb Hres2]. split; [assumption|]. apply Forall_app. now split.
    + intros Hex. apply Exists_app. now right.
  - simpl. intros msg Hex. apply Exists_app. now left.
  - simpl. auto.
Qed.

Lemma get_resources_loop_reading (s : R) (resource_type : string)
    (resource_specs : list value) :
  forall result,
    reading R s is_lookup
      (get_resources_loop R theforeman resource_type resource_specs result)
      (lookup_outcome R theforeman s (map (pair resource_type) resource_specs)
         (fun ds => List.length ds
                    = List.length result + List.length resource_specs)).
Proof.
  induction resource_specs as [|spec rest IH]; intros result.
  - apply reading_ret. simpl. split; [lia | constructor].
  - cbn [get_resources_loop].
    apply reading_bind with
      (Qm := fun o => o = Return (lookup R theforeman s (resource_type, spec))).
    + apply reading_read; reflexivity.
    + intros r Hr. injection Hr as ->.
      destruct (lookup R theforeman s (resource_type, spec)) as [[d|]|e] eqn:El.
      * destruct (truthy (VDict d)) eqn:Ht; cbn [negb].
        -- apply reading_weaken with (P := is_lookup)
             (Q := lookup_outcome R theforeman s (map (pair resource_type) rest)
                     (fun ds => List.length ds
                                = List.length (result ++ [d]) + List.length rest));
             [auto| |apply IH].
           intros [ds|msg|e]; simpl; [|apply Exists_cons_tl|auto].
           intros [Hlen Hres]. split.
           ++ rewrite Hlen, length_app. simpl. lia.
           ++ constructor; [|assumption]. exists d. now split.
        -- apply reading_fail_json. simpl. apply Exists_cons_hd. left.
           split; [|reflexivity]. exists (Some d). now split.
      * apply reading_fail_json. simpl. apply Exists_cons_hd. left.
        split; [|reflexivity]. exists None. now split.
      * apply reading_fail_json. simpl. apply Exists_cons_hd. right.
        exists e. now split.
    + intros msg H. discriminate H.
    + intros e H. discriminate H.
Qed.

Lemma get_resources_reading (s : R) (resource_type : string)
    (resource_specs : list value) :
  reading R s is_lookup
    (get_resources R theforeman resource_type resource_specs)
    (lookup_outcome R theforeman s (map (pair resource_type) resource_specs)
       (fun ds => List.length ds = List.length resource_specs)).
Proof. apply (get_resources_loop_reading s resource_type resource_specs []). Qed.

End ReadPhase.

(** ** Dictionaries *)

Lemma dict_lookup_set_eq (d : dict) (key : string) (v : value) :
  dict_lookup (dict_set d key v) key = Some v.
Proof.
  induction d as [|[k w] d IH]; simpl.
  - now rewrite String.eqb_refl.
  - destruct (k =? key) eqn:E; simpl; rewrite E; auto.
Qed.

Lemma dict_lookup_set_neq (d : dict) (key key' : string) (v : value) :
  (key =? key') = false ->
  dict_lookup (dict_set d key v) key' = dict_lookup d key'.
Proof.
  intros Hne. induction d as [|[k w] d IH]; simpl.
  - now rewrite Hne.
  - destruct (k =? key) eqn:E; simpl.
    + apply String.eqb_eq in E. subst k. now rewrite Hne.
    + destruct (k =? key'); auto.
Qed.

(** ** The blocks of [ensure] *)

Section Blocks.

Variable R : Type.
Variable theforeman : Foreman R.
Variable organizations_equal : dict -> dict -> res bool.
Variable locations_equal : dict -> dict -> res bool.

Lemma ids_reading (s : R) (resource_type : string) (specs : list value) :
  reading R s is_lookup
    (bind R (get_resources R theforeman resource_type specs)
            (fun rs => ret R (VList (map (fun r => get r "id") rs))))
    (lookup_outcome R theforeman s (map (pair resource_type) specs)
                    (fun _ => True)).
Proof.
  rewrite <- (app_nil_r (map (pair resource_type) specs)).
  eapply reading_lookups_bind; [apply get_resources_reading|].
  intros rs _. apply reading_ret. simpl. auto.
Qed.

Lemma prepare_proxy_reading (s : R) (p : params) (data : dict)
    (proxy_type : string) (I : dict -> Prop) :
  I data ->
  (forall d v, I d -> I (dict_set d (proxy_type ++ "_id") v)) ->
  reading R s is_lookup (prepare_proxy R theforeman p data proxy_type)
    (lookup_outcome R theforeman s (proxy_reference p proxy_type) I).
Proof.
  intros HI Hset. unfold prepare_proxy, proxy_reference, dict_mem, get.
  destruct (dict_lookup (module_params p) (proxy_type ++ "_proxy")) as [v|].
  - destruct (truthy v).
    + rewrite <- (app_nil_r [("smart_proxies", v)]).
      eapply reading_lookups_bind;
        [apply (get_resources_reading R theforeman s "smart_proxies" [v])|].
      intros [|r rs] Hlen; [discriminate Hlen|].
      apply reading_ret. simpl. auto.
    + apply reading_ret. simpl. auto.
  - apply reading_ret. simpl. auto.
Qed.

Lemma prepare_proxies_reading (s : R) (p : params)
    (proxy_types : list string) (I : dict -> Prop) :
  (forall t d v, In t proxy_types -> I d -> I (dict_set d (t ++ "_id") v)) ->
  forall data, I data ->
    reading R s is_lookup (prepare_proxies R theforeman p data proxy_types)
      (lookup_outcome R theforeman s
         (flat_map (proxy_reference p) proxy_types) I).
Proof.
  induction proxy_types as [|t ts IH]; intros Hset data HI.
  - apply reading_ret. simpl. auto.
  - cbn [prepare_proxies flat_map].
    eapply reading_lookups_bind.
    + apply prepare_proxy_reading; [exact HI|].
      intros d v. apply Hset. now left.
    + intros data' HI'. apply IH; [|exact HI'].
      intros t' d v Hin. apply Hset. now right.
Qed.

Lemma prepare_data_reading (s : R) (p : params) (data : dict) :
  reading R s is_lookup (prepare_data R theforeman data p)
    (lookup_outcome R theforeman s
       ((if truthy (of_list (domains p))
         then map (pair "domains") (elements (of_list (domains p)))
         else [])
        ++ flat_map (proxy_reference p) ["dns"; "dhcp"; "tftp"; "discovery"])
       (domains_kept p)).
Proof.
  unfold prepare_data.
  change (dict_mem (module_params p) "domains") with true.
  change (get (module_params p) "domains") with (of_list (domains p)).
  cbn [andb fold_left].
  eapply reading_lookups_bind with (ok1 := domains_kept p).
  - destruct (truthy (of_list (domains p))) eqn:Ht.
    + rewrite <- (app_nil_r (map _ _)).
      eapply reading_lookups_bind; [apply get_resources_reading|].
      intros rs _. apply reading_ret. simpl. split; [|constructor].
      intros Hnone. rewrite Hnone in Ht. discriminate Ht.
    + apply reading_ret. simpl. split; [|constructor].
      intros Hnone.
      rewrite !dict_lookup_set_neq by reflexivity.
      rewrite dict_lookup_set_eq.
      change (get (module_params p) "domains") with (of_list (domains p)).
      now rewrite Hnone.
  - intros data' Hkept.
    apply prepare_proxies_reading; [|exact Hkept].
    intros t d v Hin Hd Hnone. specialize (Hd Hnone).
    rewrite dict_lookup_set_neq; [assumption|].
    simpl in Hin. destruct Hin as [<-|[<-|[<-|[<-|[]]]]]; reflexivity.
Qed.

Lemma desired_data_reading (s : R) (p : params) (data : dict) :
  reading R s is_lookup (desired_data R theforeman p data)
    (lookup_outcome R theforeman s (references p) (domains_kept p)).
Proof.
  unfold desired_data, references, get_organization_ids, get_location_ids.
  eapply reading_lookups_bind with (ok1 := fun _ : dict => True).
  - destruct (truthy (of_list (organizations p))).
    + rewrite <- (app_nil_r (map _ _)).
      eapply reading_lookups_bind; [apply ids_reading|].
      intros ids _. apply reading_ret. simpl. auto.
    + apply reading_ret. simpl. auto.
  - intros data1 _.
    eapply reading_lookups_bind with (ok1 := fun _ : dict => True).
    + destruct (truthy (of_list (locations p))).
      * rewrite <- (app_nil_r (map _ _)).
        eapply reading_lookups_bind; [apply ids_reading|].
        intros ids _. apply reading_ret. simpl. auto.
      * apply reading_ret. simpl. auto.
    + intros data2 _. apply prepare_data_reading.
Qed.

(** The fetch issues the search, then at most the get, and changes
    nothing. *)
Lemma current_subnet_calls (data : dict) (w : world R) :
  remote (snd (current_subnet R theforeman data w)) = remote w
  /\ exists gets,
       calls (snd (current_subnet R theforeman data w))
       = (calls w ++ SearchSubnet data :: gets)%list
       /\ forallb is_fetch gets = true.
Proof.
  unfold current_subnet, bind, read. simpl.
  destruct (search_subnet theforeman data (remote w)) as [subnet|e]; simpl.
  - destruct (found subnet); simpl.
    + destruct (get_subnet theforeman (get_id subnet) (remote w)); simpl;
        (split; [reflexivity|]); exists [GetSubnet (get_id subnet)];
        rewrite <- app_assoc; split; reflexivity.
    + split; [reflexivity|]. exists []. split; reflexivity.
  - split; [reflexivity|]. exists []. split; reflexivity.
Qed.

(** The decision issues at most one call, a mutating one. *)
Lemma converge_calls (p : params) (subnet : option dict) (data : dict)
    (w : world R) :
  exists writes,
    calls (snd (converge R theforeman organizations_equal locations_equal
                         p subnet data w))
    = (calls w ++ writes)%list
    /\ ((writes = []
         /\ remote (snd (converge R theforeman organizations_equal
                                  locations_equal p subnet data w))
            = remote w)
        \/ exists c, writes = [c] /\ mutating c = true).
Proof.
  unfold converge.
  destruct (negb (found subnet) && py_eq (of_state (state p)) (VStr "present")).
  - unfold bind, write.
    destruct (create_subnet theforeman data (remote w)) as [[r|e] s'];
      simpl; eexists; (split; [reflexivity|]); right; eexists; split;
      reflexivity.
  - destruct subnet as [record|];
      [|exists []; rewrite app_nil_r; split; [reflexivity|now left]].
    destruct (truthy (VDict record));
      [|exists []; rewrite app_nil_r; split; [reflexivity|now left]].
    destruct (py_eq (of_state (state p)) (VStr "absent")).
    + unfold bind, write.
      destruct (delete_subnet theforeman (get record "id") (remote w))
        as [[r|e] s']; simpl; eexists; (split; [reflexivity|]); right;
        eexists; split; reflexivity.
    + unfold bind at 1. unfold lift.
      destruct (subnets_equal organizations_equal locations_equal data record)
        as [[|]|e]; simpl.
      * exists []. rewrite app_nil_r. split; [reflexivity|now left].
      * unfold bind, write.
        destruct (update_subnet theforeman (get record "id") data (remote w))
          as [[r|e] s']; simpl; eexists; (split; [reflexivity|]); right;
          eexists; split; reflexivity.
      * exists []. rewrite app_nil_r. split; [reflexivity|now left].
Qed.

(** The calls of an invocation: the search of the subnet, at most its
    get, the lookups of the references, at most one mutating call. *)
Lemma run_calls (p : params) (s : R) :
  exists gets lookups writes,
    calls (snd (run R theforeman organizations_equal locations_equal p s))
    = (SearchSubnet [("name", VStr (name p))] :: gets ++ lookups ++ writes)%list
    /\ forallb is_fetch gets = true
    /\ forallb is_lookup lookups = true
    /\ (writes = [] \/ exists c, writes = [c] /\ mutating c = true).
Proof.
  unfold run, ensure. unfold bind at 1.
  pose proof (current_subnet_calls [("name", VStr (name p))] (World s []))
    as (Hr1 & gets & Hc1 & Hg).
  destruct (current_subnet R theforeman [("name", VStr (name p))] (World s []))
    as [[subnet|msg|e] w1]; simpl in Hr1, Hc1.
  - unfold bind at 1.
    pose proof (desired_data_reading s p [("name", VStr (name p))] w1 Hr1)
      as (Hr2 & (lookups & Hc2 & Hl) & _).
    destruct (desired_data R theforeman p [("name", VStr (name p))] w1)
      as [[data|msg|e] w2]; simpl in Hr2, Hc2.
    + destruct (converge_calls p subnet data w2) as (writes & Hc3 & Hw).
      exists gets, lookups, writes. rewrite Hc3, Hc2, Hc1. simpl.
      rewrite <- !app_assoc. repeat split; auto.
      destruct Hw as [[-> _]|Hw]; auto.
    + exists gets, lookups, []. simpl. rewrite Hc2, Hc1, app_nil_r. simpl.
      repeat split; auto.
    + exists gets, lookups, []. simpl. rewrite Hc2, Hc1, app_nil_r. simpl.
      repeat split; auto.
  - exists gets, [], []. simpl. rewrite Hc1, app_nil_r. auto.
  - exists gets, [], []. simpl. rewrite Hc1, app_nil_r. auto.
Qed.

End Blocks.

Lemma reads_do_not_mutate (cs : list call) :
  forallb is_read cs = true -> filter mutating cs = [].
Proof.
  induction cs as [|c cs IH]; simpl; [reflexivity|].
  unfold is_read at 1. destruct (mutating c); simpl; [discriminate|exact IH].
Qed.

Lemma fetches_are_reads (cs : list call) :
  forallb is_fetch cs = true -> forallb is_read cs = true.
Proof.
  rewrite !forallb_forall. intros H c Hin. specialize (H c Hin).
  now destruct c.
Qed.

Lemma lookups_are_reads (cs : list call) :
  forallb is_lookup cs = true -> forallb is_read cs = true.
Proof.
  rewrite !forallb_forall. intros H c Hin. specialize (H c Hin).
  now destruct c.
Qed.

(** ** The decision table *)

Section DecisionTable.

Variable R : Type.
Variable theforeman : Foreman R.
Variable organizations_equal : dict -> dict -> res bool.
Variable locations_equal : dict -> dict -> res bool.

(** The fetch when the search finds nothing. *)
Lemma current_subnet_missing (data : dict) (s : R) (subnet : option dict) :
  search_subnet theforeman data s = Returned subnet ->
  found subnet = false ->
  current_subnet R theforeman data (World s [])
  = (Return subnet, World s [SearchSubnet data]).
Proof.
  intros Hs Hf. unfold current_subnet, bind, read. simpl.
  rewrite Hs, Hf. reflexivity.
Qed.

(** The fetch when the search finds a subnet and the get returns its
    record. *)
Lemma current_subnet_found (data : dict) (s : R) (hit record : option dict) :
  search_subnet theforeman data s = Returned hit ->
  found hit = true ->
  get_subnet theforeman (get_id hit) s = Returned record ->
  current_subnet R theforeman data (World s [])
  = (Return record, World s [SearchSubnet data; GetSubnet (get_id hit)]).
Proof.
  intros Hs Hf Hg. unfold current_subnet, bind, read. simpl.
  rewrite Hs, Hf. simpl. rewrite Hg. reflexivity.
Qed.

(** Once the subnet is fetched and the data prepared, the invocation is
    the decision; the calls issued so far are reads and the remote system
    is as it was. *)
Lemma run_decides (p : params) (s : R) (subnet : option dict)
    (w1 : world R) (data : dict) (w2 : world R) :
  current_subnet R theforeman [("name", VStr (name p))] (World s [])
  = (Return subnet, w1) ->
  desired_data R theforeman p [("name", VStr (name p))] w1
  = (Return data, w2) ->
  run R theforeman organizations_equal locations_equal p s
  = converge R theforeman organizations_equal locations_equal p subnet data w2
  /\ remote w2 = s
  /\ filter mutating (calls w2) = []
  /\ domains_kept p data.
Proof.
  intros Hc Hd. unfold run, ensure, bind. rewrite Hc, Hd.
  split; [reflexivity|].
  pose proof (current_subnet_calls R theforeman [("name", VStr (name p))]
                (World s [])) as (Hr1 & gets & Hc1 & Hg).
  rewrite Hc in Hr1, Hc1. simpl in Hr1, Hc1.
  pose proof (desired_data_reading R theforeman s p [("name", VStr (name p))]
                w1 Hr1) as (Hr2 & (lookups & Hc2 & Hl) & Hk).
  rewrite Hd in Hr2, Hc2, Hk. simpl in Hr2, Hc2, Hk.
  split; [exact Hr2|]. split; [|exact (proj1 Hk)].
  apply reads_do_not_mutate. rewrite Hc2, Hc1, forallb_app. simpl.
  now rewrite (fetches_are_reads _ Hg), (lookups_are_reads _ Hl).
Qed.

Lemma filter_mutating_snoc (cs : list call) (c : call) :
  filter mutating cs = [] -> mutating c = true ->
  filter mutating (cs ++ [c]) = [c].
Proof.
  intros Hcs Hc. rewrite filter_app, Hcs. simpl. now rewrite Hc.
Qed.

(** C2 (amended): when the search finds no subnet of that name, the
    state asked for is present and the named references all resolve, giving
    the data [data], the invocation sends exactly one mutating call, the
    creation of [data]; it returns changed = true with the record the
    creation returns, and ends in the failure "Could not create subnet"
    when the creation raises. *)
Theorem ensure_creates_missing_subnet (p : params) (s : R)
    (subnet : option dict) (data : dict) (w2 : world R) :
  state p = present ->
  search_subnet theforeman [("name", VStr (name p))] s = Returned subnet ->
  found subnet = false ->
  desired_data R theforeman p [("name", VStr (name p))]
               (World s [SearchSubnet [("name", VStr (name p))]])
  = (Return data, w2) ->
  run R theforeman organizations_equal locations_equal p s
  = (match fst (create_subnet theforeman data s) with
     | Returned created => Return (true, created)
     | ForemanError e =>
         FailJson (Format "Could not create subnet: {0}" [("0", VStr e)])
     end,
     World (snd (create_subnet theforeman data s))
           (calls w2 ++ [CreateSubnet data]))
  /\ filter mutating (calls w2 ++ [CreateSubnet data]) = [CreateSubnet data].
Proof.
  intros Hst Hs Hf Hd.
  destruct (run_decides p s subnet _ data w2
              (current_subnet_missing _ s subnet Hs Hf) Hd)
    as (Hrun & Hr & Hm & _).
  split; [|now apply filter_mutating_snoc].
  rewrite Hrun. unfold converge. rewrite Hf, Hst. simpl.
  unfold bind, write. rewrite Hr.
  now destruct (create_subnet theforeman data s) as [[created|e] s'].
Qed.

(** C3 (amended): when the subnet of that name exists with record
    [record], the state asked for is absent and the named references all
    resolve, the invocation sends exactly one mutating call, the deletion
    of the identifier of [record]; it returns changed = true with the
    record the deletion returns, and ends in the failure "Could not delete
    subnet" when the deletion raises. *)
Theorem ensure_deletes_existing_subnet (p : params) (s : R)
    (hit : option dict) (record data : dict) (w2 : world R) :
  state p = absent ->
  search_subnet theforeman [("name", VStr (name p))] s = Returned hit ->
  found hit = true ->
  get_subnet theforeman (get_id hit) s = Returned (Some record) ->
  truthy (VDict record) = true ->
  desired_data R theforeman p [("name", VStr (name p))]
               (World s [SearchSubnet [("name", VStr (name p))];
                         GetSubnet (get_id hit)])
  = (Return data, w2) ->
  run R theforeman organizations_equal locations_equal p s
  = (match fst (delete_subnet theforeman (get record "id") s) with
     | Returned deleted => Return (true, deleted)
     | ForemanError e =>
         FailJson (Format "Could not delete subnet: {0}" [("0", VStr e)])
     end,
     World (snd (delete_subnet theforeman (get record "id") s))
           (calls w2 ++ [DeleteSubnet (get record "id")]))
  /\ filter mutating (calls w2 ++ [DeleteSubnet (get record "id")])
     = [DeleteSubnet (get record "id")].
Proof.
  intros Hst Hs Hf Hg Ht Hd.
  destruct (run_decides p s (Some record) _ data w2
              (current_subnet_found _ s hit _ Hs Hf Hg) Hd)
    as (Hrun & Hr & Hm & _).
  split; [|now apply filter_mutating_snoc].
  rewrite Hrun. unfold converge, found. rewrite Ht, Hst. simpl.
  unfold bind, write. rewrite Hr.
  now destruct (delete_subnet theforeman (get record "id") s)
    as [[deleted|e] s'].
Qed.

(** C4 (amended): when the subnet of that name exists with record
    [record], the state asked for is present and the named references all
    resolve, giving the data [data]: if [subnets_equal data record] answers
    [True] the invocation sends no mutating call and returns
    changed = false with [record]; if it answers [False] the invocation
    sends exactly one mutating call, the update of the record's identifier
    with [data], and returns changed = true with the record the update
    returns (it ends in the failure "Could not update subnet" when the
    update raises).  Nothing is stated for a comparison that raises. *)
Theorem ensure_updates_when_different (p : params) (s : R)
    (hit : option dict) (record data : dict) (w2 : world R) :
  state p = present ->
  search_subnet theforeman [("name", VStr (name p))] s = Returned hit ->
  found hit = true ->
  get_subnet theforeman (get_id hit) s = Returned (Some record) ->
  truthy (VDict record) = true ->
  desired_data R theforeman p [("name", VStr (name p))]
               (World s [SearchSubnet [("name", VStr (name p))];
                         GetSubnet (get_id hit)])
  = (Return data, w2) ->
  match subnets_equal organizations_equal locations_equal data record with
  | Val true =>
      run R theforeman organizations_equal locations_equal p s
      = (Return (false, Some record), w2)
      /\ filter mutating (calls w2) = [] /\ remote w2 = s
  | Val false =>
      run R theforeman organizations_equal locations_equal p s
      = (match fst (update_subnet theforeman (get record "id") data s) with
         | Returned updated => Return (true, updated)
         | ForemanError e =>
             FailJson (Format "Could not update subnet: {0}" [("0", VStr e)])
         end,
         World (snd (update_subnet theforeman (get record "id") data s))
               (calls w2 ++ [UpdateSubnet (get record "id") data]))
      /\ filter mutating (calls w2 ++ [UpdateSubnet (get record "id") data])
         = [UpdateSubnet (get record "id") data]
  | Exc _ => True
  end.
Proof.
  intros Hst Hs Hf Hg Ht Hd.
  destruct (run_decides p s (Some record) _ data w2
              (current_subnet_found _ s hit _ Hs Hf Hg) Hd)
    as (Hrun & Hr & Hm & _).
  rewrite Hrun. unfold converge, found. rewrite Ht, Hst. simpl.
  unfold bind, lift, write, ret.
  destruct (subnets_equal organizations_equal locations_equal data record)
    as [[|]|e]; simpl.
  - auto.
  - split; [|now apply filter_mutating_snoc].
    rewrite Hr.
    now destruct (update_subnet theforeman (get record "id") data s)
      as [[updated|e] s'].
  - auto.
Qed.

(** C10 (amended): when the search finds no subnet of that name (it
    returns [None]), the state asked for is absent and the named references
    all resolve, the invocation sends no mutating call, leaves the remote
    system as it is and returns changed = false with [None] as the
    record. *)
Theorem ensure_absent_missing_subnet (p : params) (s : R) (data : dict)
    (w2 : world R) :
  state p = absent ->
  search_subnet theforeman [("name", VStr (name p))] s = Returned None ->
  desired_data R theforeman p [("name", VStr (name p))]
               (World s [SearchSubnet [("name", VStr (name p))]])
  = (Return data, w2) ->
  run R theforeman organizations_equal locations_equal p s
  = (Return (false, None), w2)
  /\ filter mutating (calls w2) = [] /\ remote w2 = s.
Proof.
  intros Hst Hs Hd.
  destruct (run_decides p s None _ data w2
              (current_subnet_missing _ s None Hs eq_refl) Hd)
    as (Hrun & Hr & Hm & _).
  rewrite Hrun. unfold converge. rewrite Hst. simpl. auto.
Qed.

End DecisionTable.

(** ** Whole invocations *)

Section Invocation.

Variable R : Type.
Variable theforeman : Foreman R.
Variable organizations_equal : dict -> dict -> res bool.
Variable locations_equal : dict -> dict -> res bool.


(** With reads that return, the fetch returns. *)
Lemma current_subnet_returns (s : R) (data : dict) :
  reads_return R theforeman s ->
  exists subnet w1,
    current_subnet R theforeman data (World s []) = (Return subnet, w1).
Proof.
  intros (Hsearch & Hget & _).
  destruct (Hsearch data) as [hit Hhit].
  destruct (found hit) eqn:Hf.
  - destruct (Hget (get_id hit)) as [record Hrecord].
    rewrite (current_subnet_found R theforeman data s hit record Hhit Hf Hrecord).
    eauto.
  - rewrite (current_subnet_missing R theforeman data s hit Hhit Hf). eauto.
Qed.


Lemma all_before_split (P Q : call -> bool) (l1 l2 : list call) :
  forallb (fun c => negb (Q c)) l1 = true ->
  forallb (fun c => negb (P c)) l2 = true ->
  all_before P Q (l1 ++ l2) = true.
Proof.
  intros H1 H2. induction l1 as [|c l1 IH]; simpl.
  - clear H1. induction l2 as [|c l2 IH2]; simpl; [reflexivity|].
    simpl in H2. apply andb_true_iff in H2. destruct H2 as [_ H2].
    rewrite (IH2 H2), H2. now destruct (Q c).
  - simpl in H1. apply andb_true_iff in H1. destruct H1 as [Hc H1].
    apply negb_true_iff in Hc. rewrite Hc. simpl. auto.
Qed.

(** C6 (amended): every invocation first searches the subnet by its
    name, then at most gets its full record, then looks the named
    references up, then sends at most one mutating call: the fetch of the
    current subnet comes before every lookup of a reference, and every
    lookup before the mutating call. *)
Theorem fetch_precedes_lookups (p : params) (s : R) :
  (exists gets lookups writes,
      calls (snd (run R theforeman organizations_equal locations_equal p s))
      = (SearchSubnet [("name", VStr (name p))] :: gets ++ lookups ++ writes)%list
      /\ forallb is_fetch gets = true
      /\ forallb is_lookup lookups = true
      /\ forallb mutating writes = true)
  /\ all_before is_fetch is_lookup
       (calls (snd (run R theforeman organizations_equal locations_equal p s)))
     = true
  /\ all_before is_lookup mutating
       (calls (snd (run R theforeman organizations_equal locations_equal p s)))
     = true.
Proof.
  destruct (run_calls R theforeman organizations_equal locations_equal p s)
    as (gets & lookups & writes & Hc & Hg & Hl & Hw).
  assert (Hwm : forallb mutating writes = true).
  { destruct Hw as [->|(c & -> & Hm)]; simpl; [reflexivity|now rewrite Hm]. }
  split; [exists gets, lookups, writes; auto|].
  rewrite Hc. split.
  - change (SearchSubnet [("name", VStr (name p))] :: gets ++ lookups ++ writes)%list
      with ((SearchSubnet [("name", VStr (name p))] :: gets) ++ (lookups ++ writes))%list.
    apply all_before_split.
    + simpl. rewrite forallb_forall in *. intros c Hin.
      specialize (Hg c Hin). now destruct c.
    + rewrite forallb_app. apply andb_true_iff. split.
      * rewrite forallb_forall in *. intros c Hin.
        specialize (Hl c Hin). now destruct c.
      * rewrite forallb_forall in *. intros c Hin.
        specialize (Hwm c Hin). now destruct c.
  - change (SearchSubnet [("name", VStr (name p))] :: gets ++ lookups ++ writes)%list
      with ((SearchSubnet [("name", VStr (name p))] :: gets) ++ (lookups ++ writes))%list.
    rewrite app_assoc. apply all_before_split.
    + rewrite forallb_app. apply andb_true_iff. split.
      * simpl. rewrite forallb_forall in *. intros c Hin.
        specialize (Hg c Hin). now destruct c.
      * rewrite forallb_forall in *. intros c Hin.
        specialize (Hl c Hin). now destruct c.
    + rewrite forallb_forall in *. intros c Hin.
      specialize (Hwm c Hin). now destruct c.
Qed.

(** C8: the calls of every invocation are reads followed by at most one
    mutating call, which is therefore the last call issued: nothing
    follows it, and every lookup and fetch precedes it. *)
Theorem at_most_one_mutating_call (p : params) (s : R) :
  exists reads writes,
    calls (snd (run R theforeman organizations_equal locations_equal p s))
    = (reads ++ writes)%list
    /\ forallb is_read reads = true
    /\ (writes = [] \/ exists c, writes = [c] /\ mutating c = true)
    /\ (List.length
          (filter mutating
             (calls (snd (run R theforeman organizations_equal
                              locations_equal p s)))) <= 1)%nat.
Proof.
  destruct (run_calls R theforeman organizations_equal locations_equal p s)
    as (gets & lookups & writes & Hc & Hg & Hl & Hw).
  assert (Hreads : forallb is_read
                     (SearchSubnet [("name", VStr (name p))] :: gets ++ lookups)
                   = true).
  { simpl. rewrite forallb_app.
    now rewrite (fetches_are_reads _ Hg), (lookups_are_reads _ Hl). }
  exists (SearchSubnet [("name", VStr (name p))] :: gets ++ lookups)%list, writes.
  split; [rewrite Hc; simpl; now rewrite app_assoc|].
  split; [exact Hreads|]. split; [exact Hw|].
  rewrite Hc.
  change (SearchSubnet [("name", VStr (name p))] :: gets ++ lookups ++ writes)%list
    with ((SearchSubnet [("name", VStr (name p))] :: gets) ++ (lookups ++ writes))%list.
  rewrite app_assoc, filter_app.
  change ((SearchSubnet [("name", VStr (name p))] :: gets) ++ lookups)%list
    with (SearchSubnet [("name", VStr (name p))] :: gets ++ lookups)%list.
  rewrite (reads_do_not_mutate _ Hreads). simpl.
  destruct Hw as [->|(c & -> & Hm)]; simpl; [lia|]. rewrite Hm. simpl. lia.
Qed.


End Invocation.

(** ** The reconciler run on the in-memory server *)

(** C2, at the documented subnet on a server that holds none. *)
Lemma ensure_creates_missing_subnet_witness :
  exists (data : dict) (w2 : world Memory.store),
    Memory.run_ensure (Memory.my_subnet present Memory.with_domain)
                      Memory.empty_server
    = (match fst (create_subnet Memory.client data Memory.empty_server) with
       | Returned created => Return (true, created)
       | ForemanError e =>
           FailJson (Format "Could not create subnet: {0}" [("0", VStr e)])
       end,
       World (snd (create_subnet Memory.client data Memory.empty_server))
             (calls w2 ++ [CreateSubnet data]))
    /\ filter mutating (calls w2 ++ [CreateSubnet data]) = [CreateSubnet data].
Proof.
  eexists. eexists.
  apply (ensure_creates_missing_subnet Memory.store Memory.client
           (Memory.ids_equal "organization_ids" "organizations")
           (Memory.ids_equal "location_ids" "locations")
           (Memory.my_subnet present Memory.with_domain)
           Memory.empty_server None);
    [reflexivity | reflexivity | reflexivity | vm_compute; reflexivity].
Defined.

(** C3, at the documented subnet with state absent on the server that
    holds it. *)
Lemma ensure_deletes_existing_subnet_witness :
  exists w2 : world Memory.store,
    Memory.run_ensure (Memory.my_subnet absent None) Memory.busy_server
    = (Return (true, Some Memory.existing_subnet),
       World (Memory.Store [] (Memory.resources Memory.empty_server) 2)
             (calls w2 ++ [DeleteSubnet (VInt 1)]))
    /\ filter mutating (calls w2 ++ [DeleteSubnet (VInt 1)])
       = [DeleteSubnet (VInt 1)].
Proof.
  eexists.
  refine (ensure_deletes_existing_subnet Memory.store Memory.client
            (Memory.ids_equal "organization_ids" "organizations")
            (Memory.ids_equal "location_ids" "locations")
            (Memory.my_subnet absent None) Memory.busy_server
            (Some Memory.existing_subnet) Memory.existing_subnet _ _
            _ _ _ _ _ _);
    [reflexivity | reflexivity | reflexivity | reflexivity | reflexivity
    | vm_compute; reflexivity].
Defined.

(** C4, at the documented subnet with state present on the server that
    holds a subnet of that name without network or mask: the comparison
    answers [False] and the subnet is updated. *)
Lemma ensure_updates_when_different_witness :
  exists (data : dict) (w2 : world Memory.store),
    desired_data Memory.store Memory.client
      (Memory.my_subnet present Memory.with_domain)
      [("name", VStr "MySubnet")]
      (World Memory.busy_server
             [SearchSubnet [("name", VStr "MySubnet")]; GetSubnet (VInt 1)])
    = (Return data, w2)
    /\ subnets_equal (Memory.ids_equal "organization_ids" "organizations")
                     (Memory.ids_equal "location_ids" "locations")
                     data Memory.existing_subnet = Val false
    /\ Memory.run_ensure (Memory.my_subnet present Memory.with_domain)
                         Memory.busy_server
       = (Return (true, Some (Memory.merge Memory.existing_subnet data)),
          World (Memory.Store [Memory.merge Memory.existing_subnet data]
                              (Memory.resources Memory.empty_server) 2)
                (calls w2 ++ [UpdateSubnet (VInt 1) data]))
    /\ filter mutating (calls w2 ++ [UpdateSubnet (VInt 1) data])
       = [UpdateSubnet (VInt 1) data].
Proof.
  eexists. eexists.
  pose proof (fun data w2 H =>
    ensure_updates_when_different Memory.store Memory.client
      (Memory.ids_equal "organization_ids" "organizations")
      (Memory.ids_equal "location_ids" "locations")
      (Memory.my_subnet present Memory.with_domain) Memory.busy_server
      (Some Memory.existing_subnet) Memory.existing_subnet data w2
      eq_refl eq_refl eq_refl eq_refl eq_refl H) as Hthm.
  split; [vm_compute; reflexivity|].
  split; [vm_compute; reflexivity|].
  match goal with
  | |- _ /\ filter mutating (calls ?w ++ [UpdateSubnet _ ?d]) = _ =>
      exact (Hthm d w eq_refl)
  end.
Defined.

(** C10, at the documented subnet with state absent on a server that
    holds none. *)
Lemma ensure_absent_missing_subnet_witness :
  exists w2 : world Memory.store,
    Memory.run_ensure (Memory.my_subnet absent None) Memory.empty_server
    = (Return (false, None), w2)
    /\ filter mutating (calls w2) = [] /\ remote w2 = Memory.empty_server.
Proof.
  eexists.
  eapply (ensure_absent_missing_subnet Memory.store Memory.client
           (Memory.ids_equal "organization_ids" "organizations")
           (Memory.ids_equal "location_ids" "locations")
           (Memory.my_subnet absent None) Memory.empty_server);
    [reflexivity | reflexivity | vm_compute; reflexivity].
Defined.

Lemma memory_reads_return (s : Memory.store) :
  reads_return Memory.store Memory.client s.
Proof. repeat split; intros; eexists; reflexivity. Defined.


(** C9, at two records that differ in their name, and at two pairs of
    records that differ only in a comment the comparison does not read. *)
Lemma subnets_equal_fixed_fields_witness :
  subnets_equal (Memory.ids_equal "organization_ids" "organizations")
                (Memory.ids_equal "location_ids" "locations")
                [("name", VStr "MySubnet"); ("domains", VList [])]
                [("name", VStr "Other"); ("domains", VList [])]
  = Val false
  /\ subnets_equal (Memory.ids_equal "organization_ids" "organizations")
                   (Memory.ids_equal "location_ids" "locations")
                   [("name", VStr "MySubnet"); ("domains", VList [])]
                   Memory.existing_subnet
     = subnets_equal (Memory.ids_equal "organization_ids" "organizations")
                     (Memory.ids_equal "location_ids" "locations")
                     [("name", VStr "MySubnet"); ("domains", VList []);
                      ("comment", VStr "lab")]
                     (Memory.existing_subnet ++ [("created_at", VStr "today")])%list.
Proof.
  split.
  - apply (proj1 (subnets_equal_fixed_fields _ _) _ _ "name");
      [simpl; auto | reflexivity].
  - apply (proj2 (subnets_equal_fixed_fields _ _));
      [intros key Hin; simpl in Hin;
       repeat (destruct Hin as [<-|Hin]; [split; reflexivity|]); destruct Hin
      | reflexivity | reflexivity | reflexivity | reflexivity].
Defined.

(** C6 (the claim as stated fails): in the invocation that creates the
    documented subnet with one domain, the lookup of the domain is issued
    after the search of the subnet, so it is false that the lookups of the
    references all come before the fetch. *)
Lemma lookup_issued_after_fetch :
  calls (snd (Memory.run_ensure (Memory.my_subnet present Memory.with_domain)
                                Memory.empty_server))
  = [SearchSubnet [("name", VStr "MySubnet")];
     SearchResource "domains" [("name", VStr "foo.example.com")];
     CreateSubnet
       [("name", VStr "MySubnet"); ("dns_primary", VNone);
        ("dns_secondary", VNone); ("gateway", VNone); ("ipam", VNone);
        ("boot_mode", VStr "DHCP"); ("mask", VStr "255.255.255.0");
        ("network", VStr "192.168.123.0"); ("vlanid", VNone);
        ("domains", VList [VDict (Memory.domain 1 "foo.example.com")]);
        ("from", VNone); ("to", VNone); ("dns_id", VNone);
        ("dhcp_id", VNone); ("tftp_id", VNone); ("discovery_id", VNone)]]
  /\ all_before is_lookup is_fetch
       (calls (snd (Memory.run_ensure
                      (Memory.my_subnet present Memory.with_domain)
                      Memory.empty_server)))
     = false.
Proof. split; vm_compute; reflexivity. Qed.

(** C7 (the code at the failing input): the documented subnet, asked for
    with state present and no domains, is created by a first invocation on
    a server that holds none; the second invocation, on the server the first
    one left, finds the subnet with every compared field equal and raises
    [TypeError] in [domains_equal] instead of returning changed = false. *)
Theorem second_run_without_domains_raises :
  exists (created : option dict) (w : world Memory.store),
    Memory.run_ensure (Memory.my_subnet present None) Memory.empty_server
    = (Return (true, created), w)
    /\ Memory.run_ensure (Memory.my_subnet present None) (remote w)
       = (Uncaught TypeError,
          World (remote w)
                [SearchSubnet [("name", VStr "MySubnet")]; GetSubnet (VInt 1)]).
Proof.
  eexists. eexists. split; vm_compute; reflexivity.
Qed.

(** With a domain given, the second invocation does return
    changed = false on this server. *)
Example second_run_with_domain_unchanged :
  exists (created : option dict) (w : world Memory.store),
    Memory.run_ensure (Memory.my_subnet present Memory.with_domain)
                      Memory.empty_server
    = (Return (true, created), w)
    /\ fst (Memory.run_ensure (Memory.my_subnet present Memory.with_domain)
                              (remote w))
       = Return (false, created).
Proof.
  eexists. eexists. split; vm_compute; reflexivity.
Qed.


(** * Further properties of the code *)

(** ** The comparison of the domains *)

Lemma res_map_names (l : list value) :
  (exists ns, res_map (fun d => item d "name") l = Val ns)
  <-> forallb has_name l = true.
Proof.
  induction l as [|v l IH]; simpl.
  - split; eauto.
  - unfold res_bind. split.
    + intros [ns H].
      destruct v as [| | | | |d]; simpl in H; try discriminate H.
      cbn [has_name]. unfold subscript, dict_mem in *.
      destruct (dict_lookup d "name"); [|discriminate H]. simpl.
      apply IH.
      destruct (res_map (fun d0 => item d0 "name") l); [eauto|discriminate H].
    + intros H. apply andb_true_iff in H. destruct H as [Hv Hl].
      destruct v as [| | | | |d]; simpl in Hv; try discriminate Hv.
      unfold dict_mem in Hv. simpl. unfold subscript.
      destruct (dict_lookup d "name"); [|discriminate Hv].
      apply IH in Hl. destruct Hl as [ns ->]. eauto.
Qed.

Lemma names_returns (d : dict) :
  (exists v ns, subscript d "domains" = Val v /\ names v = Val ns)
  <-> named_domains d = true.
Proof.
  unfold named_domains, subscript, names, res_bind.
  destruct (dict_lookup d "domains") as [v|].
  - destruct v as [| | |s|l|e]; simpl.
    + split; [intros (v & ns & H & H'); injection H as <-; discriminate H'|discriminate].
    + split; [intros (v & ns & H & H'); injection H as <-; discriminate H'|discriminate].
    + split; [intros (v & ns & H & H'); injection H as <-; discriminate H'|discriminate].
    + destruct s as [|c s]; simpl.
      * split; [reflexivity|intros _; do 2 eexists; split; reflexivity].
      * split; [intros (v & ns & H & H'); injection H as <-; discriminate H'|discriminate].
    + rewrite <- res_map_names. split.
      * intros (v & ns & H & H'). injection H as <-. eauto.
      * intros [ns H]. eauto.
    + destruct e as [|kv e]; simpl.
      * split; [reflexivity|intros _; do 2 eexists; split; reflexivity].
      * split; [intros (v & ns & H & H'); injection H as <-; discriminate H'|discriminate].
  - split; [intros (v & ns & H & _); discriminate H|discriminate].
Qed.

Lemma string_names_are_names (l : list value) :
  forallb has_string_name l = true -> forallb has_name l = true.
Proof.
  rewrite !forallb_forall. intros H v Hin. specialize (H v Hin).
  destruct v as [| | | | |d]; simpl in *; try discriminate H.
  unfold dict_mem. destruct (dict_lookup d "name"); [reflexivity|discriminate H].
Qed.

Lemma string_named_is_named (d : dict) :
  string_named_domains d = true -> named_domains d = true.
Proof.
  unfold string_named_domains, named_domains.
  destruct (dict_lookup d "domains") as [[| | | |l|]|]; try discriminate.
  apply string_names_are_names.
Qed.

(** X1: on two records whose ['domains'] entries are lists of
    dictionaries named by strings, [domains_equal] answers [True], whatever
    the names are; whenever it answers [True], each ['domains'] entry is a
    list of dictionaries that have a name (or an empty string or
    dictionary); and it never answers [False]: on every pair of records it
    answers [True] or raises. *)
Theorem domains_equal_answers :
  forall data subnet,
    (string_named_domains data && string_named_domains subnet = true ->
     domains_equal data subnet = Val true)
    /\ (domains_equal data subnet = Val true ->
        named_domains data && named_domains subnet = true)
    /\ domains_equal data subnet <> Val false.
Proof.
  intros data subnet. split; [|split].
  - intros H. apply andb_true_iff in H. destruct H as [Hd Hs].
    apply string_named_is_named, names_returns in Hd.
    destruct Hd as (dd & dn & Hd & Hdn).
    apply string_named_is_named, names_returns in Hs.
    destruct Hs as (sd & sn & Hs & Hsn).
    unfold domains_equal, res_bind. now rewrite Hd, Hdn, Hs, Hsn.
  - intros H. unfold domains_equal, res_bind in H.
    destruct (subscript data "domains") as [dd|] eqn:Hd; [|discriminate H].
    destruct (names dd) as [dn|] eqn:Hdn; [|discriminate H].
    destruct (subscript subnet "domains") as [sd|] eqn:Hs; [|discriminate H].
    destruct (names sd) as [sn|] eqn:Hsn; [|discriminate H].
    apply andb_true_iff. split; apply names_returns; eauto.
  - intros H. apply domains_equal_true in H. discriminate H.
Qed.

(** ** The search data of a reference *)

Lemma dict_set_fresh (d : dict) (key : string) (v : value) :
  ~ In key (map fst d) -> dict_set d key v = (d ++ [(key, v)])%list.
Proof.
  induction d as [|[k w] d IH]; simpl; intros Hfresh; [reflexivity|].
  destruct (k =? key) eqn:E.
  - apply String.eqb_eq in E. exfalso. apply Hfresh. now left.
  - f_equal. apply IH. intros Hin. apply Hfresh. now right.
Qed.

Lemma copy_appends (d acc : dict) :
  NoDup (map fst (acc ++ d)) ->
  fold_left (fun sd kv => dict_set sd (fst kv) (snd kv)) d acc
  = (acc ++ d)%list.
Proof.
  revert acc. induction d as [|[k v] d IH]; intros acc Hnd; simpl.
  - now rewrite app_nil_r.
  - rewrite dict_set_fresh.
    + rewrite IH; rewrite <- app_assoc; [reflexivity|exact Hnd].
    + rewrite map_app in Hnd. simpl in Hnd.
      apply NoDup_remove_2 in Hnd. intros Hin. apply Hnd.
      apply in_or_app. now left.
Qed.

(** X2: a reference given as a dictionary (with its keys unique, as a
    dictionary has them) is searched with a copy of that dictionary, entry
    for entry and in the same order. *)
Theorem search_data_copies_dict (d : dict) :
  NoDup (map fst d) -> search_data_of (VDict d) = d.
Proof. intros Hnd. apply (copy_appends d [] Hnd). Qed.

(** ** The lookups of [get_resources] and [prepare_data] *)

Section Lookups.

Variable R : Type.
Variable theforeman : Foreman R.

Lemma bind_returns {A B} (m : M R A) (k : A -> M R B) (w w' : world R) (b : B) :
  bind R m k w = (Return b, w') ->
  exists a w1, m w = (Return a, w1) /\ k a w1 = (Return b, w').
Proof.
  unfold bind. destruct (m w) as [[a|msg|e] w1]; intros H;
    try discriminate H. eauto.
Qed.

Lemma get_resources_loop_returns (resource_type : string)
    (resource_specs : list value) :
  forall result w rs w',
    get_resources_loop R theforeman resource_type resource_specs result w
    = (Return rs, w') ->
    remote w' = remote w
    /\ calls w'
       = (calls w
          ++ map search_call (map (pair resource_type) resource_specs))%list
    /\ exists records,
         rs = (result ++ records)%list
         /\ Forall2 (found_by theforeman (remote w))
                    (map (pair resource_type) resource_specs) records.
Proof.
  induction resource_specs as [|spec rest IH]; intros result w rs w' H.
  - injection H as <- <-. simpl. rewrite app_nil_r.
    repeat split. exists []. rewrite app_nil_r. split; constructor.
  - cbn [get_resources_loop] in H. unfold bind at 1 in H. unfold read in H.
    cbn [fst snd remote calls] in H.
    destruct (search_resource theforeman resource_type (search_data_of spec)
                              (remote w)) as [[d|]|e] eqn:Hs;
      [|discriminate H|discriminate H].
    destruct (truthy (VDict d)) eqn:Ht; cbn [negb] in H; [|discriminate H].
    apply IH in H. cbn [remote calls] in H.
    destruct H as (Hr & Hc & records & -> & Hall).
    split; [exact Hr|]. split.
    + rewrite Hc, <- app_assoc. reflexivity.
    + exists (d :: records). rewrite <- app_assoc. split; [reflexivity|].
      constructor; [|exact Hall]. split; assumption.
Qed.

(** X3: when [get_resources] returns, it has sent exactly one search per
    reference, in the order given, without touching the remote system, and
    its result lists, in the same order, the record each search found. *)
Theorem get_resources_returns (resource_type : string)
    (resource_specs : list value) (w w' : world R) (rs : list dict) :
  get_resources R theforeman resource_type resource_specs w = (Return rs, w') ->
  remote w' = remote w
  /\ calls w'
     = (calls w ++ map search_call (map (pair resource_type) resource_specs))%list
  /\ Forall2 (found_by theforeman (remote w))
             (map (pair resource_type) resource_specs) rs.
Proof.
  intros H. apply get_resources_loop_returns in H.
  destruct H as (Hr & Hc & records & -> & Hall). auto.
Qed.

Lemma get_resources_loop_fails (resource_type : string)
    (resource_specs : list value) :
  forall result w msg w',
    get_resources_loop R theforeman resource_type resource_specs result w
    = (FailJson msg, w') ->
    exists before spec after,
      resource_specs = (before ++ spec :: after)%list
      /\ Forall (resolved R theforeman (remote w))
                (map (pair resource_type) before)
      /\ failed_lookup R theforeman (remote w) msg (resource_type, spec)
      /\ remote w' = remote w
      /\ calls w'
         = (calls w
            ++ map search_call (map (pair resource_type) (before ++ [spec])))%list.
Proof.
  induction resource_specs as [|spec rest IH]; intros result w msg w' H.
  - discriminate H.
  - cbn [get_resources_loop] in H. unfold bind at 1 in H. unfold read in H.
    cbn [fst snd remote calls] in H.
    destruct (search_resource theforeman resource_type (search_data_of spec)
                              (remote w)) as [[d|]|e] eqn:Hs.
    + destruct (truthy (VDict d)) eqn:Ht; cbn [negb] in H.
      * apply IH in H. cbn [remote calls] in H.
        destruct H as (before & spec' & after & -> & Hres & Hfail & Hr & Hc).
        exists (spec :: before), spec', after.
        split; [reflexivity|]. split.
        { simpl. constructor; [|exact Hres]. exists d. now split. }
        split; [exact Hfail|]. split; [exact Hr|].
        rewrite Hc, <- app_assoc. reflexivity.
      * injection H as <- <-. exists [], spec, rest.
        split; [reflexivity|]. split; [constructor|]. split.
        { left. split; [|reflexivity]. exists (Some d). split; [exact Hs|].
          exact Ht. }
        split; reflexivity.
    + injection H as <- <-. exists [], spec, rest.
      split; [reflexivity|]. split; [constructor|]. split.
      { left. split; [|reflexivity]. exists None. split; [exact Hs|reflexivity]. }
      split; reflexivity.
    + injection H as <- <-. exists [], spec, rest.
      split; [reflexivity|]. split; [constructor|]. split.
      { right. exists e. split; [exact Hs|reflexivity]. }
      split; reflexivity.
Qed.

(** X4: when [get_resources] fails, it is on the first reference whose
    search finds nothing or raises: the references before it were found,
    the failure carries the resource type and that reference, and no
    reference after it was searched. *)
Theorem get_resources_stops_at_first_failure (resource_type : string)
    (resource_specs : list value) (w w' : world R) (msg : message) :
  get_resources R theforeman resource_type resource_specs w
  = (FailJson msg, w') ->
  exists before spec after,
    resource_specs = (before ++ spec :: after)%list
    /\ Forall (resolved R theforeman (remote w))
              (map (pair resource_type) before)
    /\ failed_lookup R theforeman (remote w) msg (resource_type, spec)
    /\ remote w' = remote w
    /\ calls w'
       = (calls w
          ++ map search_call (map (pair resource_type) (before ++ [spec])))%list.
Proof. apply get_resources_loop_fails. Qed.

End Lookups.

(** ** The data [prepare_data] returns *)

Section Prepared.

Variable R : Type.
Variable theforeman : Foreman R.

Lemma proxy_id_sent_ext (s : R) (p : params) (data data' : dict)
    (proxy_type : string) :
  dict_lookup data' (proxy_type ++ "_id") = dict_lookup data (proxy_type ++ "_id") ->
  proxy_id_sent theforeman s p data proxy_type ->
  proxy_id_sent theforeman s p data' proxy_type.
Proof.
  unfold proxy_id_sent. intros ->. auto.
Qed.

Lemma prepare_proxy_returns (p : params) (data : dict) (proxy_type : string)
    (w w1 : world R) (d1 : dict) :
  dict_mem (module_params p) (proxy_type ++ "_proxy") = true ->
  prepare_proxy R theforeman p data proxy_type w = (Return d1, w1) ->
  remote w1 = remote w
  /\ proxy_id_sent theforeman (remote w) p d1 proxy_type
  /\ (forall key, (proxy_type ++ "_id" =? key) = false ->
                  dict_lookup d1 key = dict_lookup data key)
  /\ calls w1 = (calls w ++ map search_call (proxy_reference p proxy_type))%list.
Proof.
  intros Hmem H. unfold prepare_proxy in H. rewrite Hmem in H.
  unfold proxy_id_sent, proxy_reference.
  destruct (truthy (get (module_params p) (proxy_type ++ "_proxy"))) eqn:Ht.
  - apply bind_returns in H. destruct H as (rs & w0 & Hg & H).
    apply get_resources_returns in Hg. destruct Hg as (Hr & Hc & Hall).
    simpl in Hall. inversion Hall as [|ref r refs rs' Hfound Hrest]; subst.
    injection H as <- <-.
    split; [exact Hr|]. split.
    + exists r. split; [exact Hfound|]. apply dict_lookup_set_eq.
    + split; [|exact Hc]. intros key Hne. now apply dict_lookup_set_neq.
  - injection H as <- <-. split; [reflexivity|]. split.
    + apply dict_lookup_set_eq.
    + split; [|simpl; now rewrite app_nil_r].
      intros key Hne. now apply dict_lookup_set_neq.
Qed.

Lemma prepare_proxies_returns (p : params) (proxy_types : list string) :
  NoDup (map (fun t => t ++ "_id") proxy_types) ->
  (forall t, In t proxy_types ->
             dict_mem (module_params p) (t ++ "_proxy") = true) ->
  forall data w data' w',
    prepare_proxies R theforeman p data proxy_types w = (Return data', w') ->
    remote w' = remote w
    /\ (forall t, In t proxy_types ->
                  proxy_id_sent theforeman (remote w) p data' t)
    /\ (forall key, (forall t, In t proxy_types -> (t ++ "_id" =? key) = false) ->
                    dict_lookup data' key = dict_lookup data key)
    /\ calls w'
       = (calls w ++ map search_call (flat_map (proxy_reference p) proxy_types))%list.
Proof.
  induction proxy_types as [|t ts IH]; intros Hnd Hmem data w data' w' H.
  - injection H as <- <-. repeat split; auto.
    + intros t [].
    + simpl. now rewrite app_nil_r.
  - cbn [prepare_proxies] in H. apply bind_returns in H.
    destruct H as (d1 & w1 & H1 & H).
    apply prepare_proxy_returns in H1; [|apply Hmem; now left].
    destruct H1 as (Hr1 & Hsent & Hkeep1 & Hc1).
    simpl in Hnd. inversion Hnd as [|x xs Hnotin Hnd']; subst.
    apply IH in H; [|exact Hnd'|intros t' Hin; apply Hmem; now right].
    destruct H as (Hr & Hsents & Hkeep & Hc).
    split; [congruence|]. split; [|split].
    + intros t' [<-|Hin].
      * apply proxy_id_sent_ext with (data := d1); [|exact Hsent].
        apply Hkeep. intros t' Hin'. apply String.eqb_neq. intros Heq.
        apply Hnotin. rewrite <- Heq.
        apply (in_map (fun t => t ++ "_id") ts t' Hin').
      * rewrite <- Hr1. now apply Hsents.
    + intros key Hne. rewrite Hkeep, Hkeep1; auto.
      * apply Hne. now left.
      * intros t' Hin. apply Hne. now right.
    + rewrite Hc, Hc1, <- app_assoc, <- map_app. reflexivity.
Qed.

(** What a returning [prepare_data] has done: the calls it sent and the
    entries of the data it returns. *)
Lemma prepare_data_returns (p : params) (data data' : dict) (w w' : world R) :
  prepare_data R theforeman data p w = (Return data', w') ->
  remote w' = remote w
  /\ calls w'
     = (calls w
        ++ map search_call
             ((if truthy (of_list (domains p))
               then map (pair "domains") (elements (of_list (domains p)))
               else [])
              ++ flat_map (proxy_reference p)
                          ["dns"; "dhcp"; "tftp"; "discovery"]))%list
  /\ (forall key, In key scalar_keys ->
                  dict_lookup data' key = Some (get (module_params p) key))
  /\ dict_lookup data' "from" = Some (of_str (ip_from p))
  /\ dict_lookup data' "to" = Some (of_str (ip_to p))
  /\ (forall key, ~ In key prepared_keys ->
                  dict_lookup data' key = dict_lookup data key)
  /\ (if truthy (of_list (domains p))
      then exists rs,
             Forall2 (found_by theforeman (remote w))
                     (map (pair "domains") (elements (of_list (domains p)))) rs
             /\ dict_lookup data' "domains" = Some (VList (map VDict rs))
      else dict_lookup data' "domains" = Some (of_list (domains p)))
  /\ (forall t, In t ["dns"; "dhcp"; "tftp"; "discovery"] ->
                proxy_id_sent theforeman (remote w) p data' t).
Proof.
  intros H. unfold prepare_data in H.
  change (dict_mem (module_params p) "domains") with true in H.
  change (get (module_params p) "domains") with (of_list (domains p)) in H.
  cbn [andb fold_left] in H.
  apply bind_returns in H. destruct H as (d0 & w0 & H0 & H).
  apply prepare_proxies_returns in H;
    [|repeat constructor; simpl; intuition discriminate
     |intros t Hin; simpl in Hin;
      destruct Hin as [<-|[<-|[<-|[<-|[]]]]]; reflexivity].
  destruct H as (Hr & Hsent & Hkeep & Hc).
  assert (Hids : forall key,
             (key =? "dns_id") = false -> (key =? "dhcp_id") = false ->
             (key =? "tftp_id") = false -> (key =? "discovery_id") = false ->
             dict_lookup data' key = dict_lookup d0 key).
  { intros key H1 H2 H3 H4. apply Hkeep. intros t Hin. simpl in Hin.
    rewrite String.eqb_sym.
    destruct Hin as [<-|[<-|[<-|[<-|[]]]]]; assumption. }
  destruct (truthy (of_list (domains p))) eqn:Ht.
  - apply bind_returns in H0. destruct H0 as (rs & w1 & Hg & H0).
    apply get_resources_returns in Hg. destruct Hg as (Hr1 & Hc1 & Hall).
    injection H0 as <- <-.
    split; [congruence|]. split; [|split; [|split; [|split; [|split; [|split]]]]].
    + rewrite Hc, Hc1, <- app_assoc, <- map_app. reflexivity.
    + intros key Hin. simpl in Hin.
      repeat (destruct Hin as [<-|Hin];
              [rewrite Hids by reflexivity;
               rewrite ?dict_lookup_set_neq by reflexivity;
               apply dict_lookup_set_eq|]).
      destruct Hin.
    + rewrite Hids by reflexivity.
      rewrite ?dict_lookup_set_neq by reflexivity. apply dict_lookup_set_eq.
    + rewrite Hids by reflexivity.
      rewrite ?dict_lookup_set_neq by reflexivity. apply dict_lookup_set_eq.
    + intros key Hnot.
      assert (Hne : forall k, In k prepared_keys -> (k =? key) = false).
      { intros k Hin. apply String.eqb_neq. intros ->. exact (Hnot Hin). }
      rewrite Hids by (rewrite String.eqb_sym; apply Hne; simpl; tauto).
      rewrite !dict_lookup_set_neq by (apply Hne; simpl; tauto). reflexivity.
    + exists rs. split; [exact Hall|]. rewrite Hids by reflexivity.
      apply dict_lookup_set_eq.
    + intros t Hin. rewrite <- Hr1. now apply Hsent.
  - injection H0 as <- <-.
    split; [exact Hr|]. split; [|split; [|split; [|split; [|split; [|split]]]]].
    + exact Hc.
    + intros key Hin. simpl in Hin.
      repeat (destruct Hin as [<-|Hin];
              [rewrite Hids by reflexivity;
               rewrite ?dict_lookup_set_neq by reflexivity;
               apply dict_lookup_set_eq|]).
      destruct Hin.
    + rewrite Hids by reflexivity.
      rewrite ?dict_lookup_set_neq by reflexivity. apply dict_lookup_set_eq.
    + rewrite Hids by reflexivity.
      rewrite ?dict_lookup_set_neq by reflexivity. apply dict_lookup_set_eq.
    + intros key Hnot.
      assert (Hne : forall k, In k prepared_keys -> (k =? key) = false).
      { intros k Hin. apply String.eqb_neq. intros ->. exact (Hnot Hin). }
      rewrite Hids by (rewrite String.eqb_sym; apply Hne; simpl; tauto).
      rewrite !dict_lookup_set_neq by (apply Hne; simpl; tauto). reflexivity.
    + rewrite Hids by reflexivity.
      rewrite ?dict_lookup_set_neq by reflexivity. apply dict_lookup_set_eq.
    + exact Hsent.
Qed.

(** X5: the data a returning [prepare_data] hands back carries each of
    dns_primary, dns_secondary, gateway, ipam, boot_mode, mask, network and
    vlanid with the value of the parameter of that name ([None] included, when
    the parameter was not given), the parameters ip_from and ip_to under the
    keys from and to, and every entry it was given under another key (name,
    organization_ids, location_ids) as it was. *)
Theorem prepare_data_copies_parameters (p : params) (data data' : dict)
    (w w' : world R) :
  prepare_data R theforeman data p w = (Return data', w') ->
  (forall key, In key scalar_keys ->
               dict_lookup data' key = Some (get (module_params p) key))
  /\ dict_lookup data' "from" = Some (of_str (ip_from p))
  /\ dict_lookup data' "to" = Some (of_str (ip_to p))
  /\ (forall key, ~ In key prepared_keys ->
                  dict_lookup data' key = dict_lookup data key).
Proof.
  intros H. apply prepare_data_returns in H.
  destruct H as (_ & _ & Hs & Hf & Ht & Hk & _). auto.
Qed.

(** X6: in the data a returning [prepare_data] hands back, each of dns_id,
    dhcp_id, tftp_id and discovery_id is the identifier of the smart proxy
    that the search by the name given found, and [None] when the proxy
    parameter was not given or is the empty string. *)
Theorem prepare_data_resolves_proxies (p : params) (data data' : dict)
    (w w' : world R) (proxy_type : string) :
  prepare_data R theforeman data p w = (Return data', w') ->
  In proxy_type ["dns"; "dhcp"; "tftp"; "discovery"] ->
  proxy_id_sent theforeman (remote w) p data' proxy_type.
Proof.
  intros H Hin. apply prepare_data_returns in H.
  destruct H as (_ & _ & _ & _ & _ & _ & _ & Hp). now apply Hp.
Qed.

(** X7: in the data a returning [prepare_data] hands back, the domains
    given as a non-empty list are replaced by the records their searches
    found, one per domain and in the order given; domains not given, or
    given as an empty list, are passed on as they are ([None] or the empty
    list). *)
Theorem prepare_data_resolves_domains (p : params) (data data' : dict)
    (w w' : world R) :
  prepare_data R theforeman data p w = (Return data', w') ->
  if truthy (of_list (domains p))
  then exists rs,
         Forall2 (found_by theforeman (remote w))
                 (map (pair "domains") (elements (of_list (domains p)))) rs
         /\ dict_lookup data' "domains" = Some (VList (map VDict rs))
  else dict_lookup data' "domains" = Some (of_list (domains p)).
Proof.
  intros H. apply prepare_data_returns in H.
  destruct H as (_ & _ & _ & _ & _ & _ & Hd & _). exact Hd.
Qed.

(** X8: a returning [prepare_data] has searched the domains, in the order
    given, and then the dns, dhcp, tftp and discovery proxies that were
    given, in this order, each exactly once and nothing else; it has not
    changed the remote system. *)
Theorem prepare_data_lookups_in_order (p : params) (data data' : dict)
    (w w' : world R) :
  prepare_data R theforeman data p w = (Return data', w') ->
  remote w' = remote w
  /\ calls w'
     = (calls w
        ++ map search_call
             ((if truthy (of_list (domains p))
               then map (pair "domains") (elements (of_list (domains p)))
               else [])
              ++ flat_map (proxy_reference p)
                          ["dns"; "dhcp"; "tftp"; "discovery"]))%list.
Proof.
  intros H. apply prepare_data_returns in H.
  destruct H as (Hr & Hc & _). auto.
Qed.

End Prepared.

(** ** The outcomes of an invocation *)

Section Outcomes.

Variable R : Type.
Variable theforeman : Foreman R.
Variable organizations_equal : dict -> dict -> res bool.
Variable locations_equal : dict -> dict -> res bool.

(** The decision either sends nothing and answers changed = false (or
    passes on the exception of the comparison), or sends one mutating call
    allowed for the state, carrying the data, and answers changed = true
    (or reports that the call raised). *)
Lemma converge_outcome (p : params) (subnet : option dict) (data : dict)
    (w : world R) :
  (snd (converge R theforeman organizations_equal locations_equal
                 p subnet data w) = w
   /\ (fst (converge R theforeman organizations_equal locations_equal
                     p subnet data w) = Return (false, subnet)
       \/ exists e,
            fst (converge R theforeman organizations_equal locations_equal
                          p subnet data w) = Uncaught e))
  \/ exists c,
       calls (snd (converge R theforeman organizations_equal locations_equal
                            p subnet data w))
       = (calls w ++ [c])%list
       /\ mutating c = true
       /\ allowed_write (state p) c = true
       /\ carries data c
       /\ ((exists record,
              fst (converge R theforeman organizations_equal locations_equal
                            p subnet data w) = Return (true, record))
           \/ exists e,
                fst (converge R theforeman organizations_equal locations_equal
                              p subnet data w) = FailJson (write_failure c e)).
Proof.
  unfold converge.
  destruct (state p); simpl.
  - destruct (found subnet) eqn:Hf; simpl.
    + destruct subnet as [record|]; [|discriminate Hf]. simpl in Hf.
      rewrite Hf. unfold bind, lift, write, ret.
      destruct (subnets_equal organizations_equal locations_equal data record)
        as [[|]|e]; simpl.
      * left. split; [reflexivity|]. now left.
      * right. exists (UpdateSubnet (get record "id") data).
        destruct (update_subnet theforeman (get record "id") data (remote w))
          as [[r|e] s']; simpl;
          (do 4 (split; [reflexivity|]));
          [left; eauto|right; eexists; reflexivity].
      * left. split; [reflexivity|]. right. eauto.
    + right. exists (CreateSubnet data). unfold bind, write.
      destruct (create_subnet theforeman data (remote w)) as [[r|e] s'];
        simpl;
          (do 4 (split; [reflexivity|]));
          [left; eauto|right; eexists; reflexivity].
  - rewrite andb_false_r.
    destruct subnet as [record|]; [|left; split; [reflexivity|now left]].
    destruct record as [|entry record];
      [left; split; [reflexivity|now left]|].
    right. exists (DeleteSubnet (get (entry :: record) "id")).
    unfold bind, write.
    destruct (delete_subnet theforeman (get (entry :: record) "id") (remote w))
      as [[r|e] s']; simpl;
          (do 4 (split; [reflexivity|]));
          [left; eauto|right; eexists; reflexivity].
Qed.

Lemma desired_data_returns (p : params) (data data' : dict) (w w' : world R) :
  desired_data R theforeman p data w = (Return data', w') ->
  (forall key, ~ In key prepared_keys ->
               (key =? "organization_ids") = false ->
               (key =? "location_ids") = false ->
               dict_lookup data' key = dict_lookup data key)
  /\ (if truthy (of_list (organizations p))
      then exists ids, dict_lookup data' "organization_ids" = Some ids
      else dict_lookup data' "organization_ids"
           = dict_lookup data "organization_ids")
  /\ (if truthy (of_list (locations p))
      then exists ids, dict_lookup data' "location_ids" = Some ids
      else dict_lookup data' "location_ids" = dict_lookup data "location_ids").
Proof using theforeman.
  intros H. unfold desired_data in H.
  apply bind_returns in H. destruct H as (d1 & w1 & H1 & H).
  apply bind_returns in H. destruct H as (d2 & w2 & H2 & H).
  apply prepare_data_returns in H.
  destruct H as (_ & _ & _ & _ & _ & Hkeep & _).
  assert (Hno : forall k, (k = "organization_ids" \/ k = "location_ids") ->
                          ~ In k prepared_keys).
  { intros k [->| ->] Hin; simpl in Hin;
      repeat (destruct Hin as [Hin|Hin]; [discriminate Hin|]); exact Hin. }
  split; [|split].
  - intros key Hnot Ho Hl. rewrite (Hkeep key Hnot).
    transitivity (dict_lookup d1 key).
    + destruct (truthy (of_list (locations p))).
      * apply bind_returns in H2. destruct H2 as (ids & w3 & _ & H2).
        injection H2 as <- <-. apply dict_lookup_set_neq.
        now rewrite String.eqb_sym.
      * now injection H2 as <- <-.
    + destruct (truthy (of_list (organizations p))).
      * apply bind_returns in H1. destruct H1 as (ids & w3 & _ & H1).
        injection H1 as <- <-. apply dict_lookup_set_neq.
        now rewrite String.eqb_sym.
      * now injection H1 as <- <-.
  - rewrite (Hkeep _ (Hno _ (or_introl eq_refl))).
    assert (H21 : dict_lookup d2 "organization_ids"
                  = dict_lookup d1 "organization_ids").
    { destruct (truthy (of_list (locations p))).
      - apply bind_returns in H2. destruct H2 as (ids & w3 & _ & H2).
        injection H2 as <- <-. now apply dict_lookup_set_neq.
      - now injection H2 as <- <-. }
    rewrite H21.
    destruct (truthy (of_list (organizations p))).
    + apply bind_returns in H1. destruct H1 as (ids & w3 & _ & H1).
      injection H1 as <- <-. exists ids. apply dict_lookup_set_eq.
    + now injection H1 as <- <-.
  - rewrite (Hkeep _ (Hno _ (or_intror eq_refl))).
    destruct (truthy (of_list (locations p))).
    + apply bind_returns in H2. destruct H2 as (ids & w3 & _ & H2).
      injection H2 as <- <-. exists ids. apply dict_lookup_set_eq.
    + injection H2 as <- <-.
      destruct (truthy (of_list (organizations p))).
      * apply bind_returns in H1. destruct H1 as (ids & w3 & _ & H1).
        injection H1 as <- <-. now apply dict_lookup_set_neq.
      * now injection H1 as <- <-.
Qed.

Lemma current_subnet_outcome (data : dict) (w : world R) :
  (exists subnet,
      fst (current_subnet R theforeman data w) = Return subnet)
  \/ exists e,
       fst (current_subnet R theforeman data w) = FailJson (fetch_failure e).
Proof.
  unfold current_subnet, bind, read. simpl.
  destruct (search_subnet theforeman data (remote w)) as [subnet|e]; simpl;
    [|right; eexists; reflexivity].
  destruct (found subnet); simpl; [|left; eauto].
  destruct (get_subnet theforeman (get_id subnet) (remote w)); simpl;
    [left; eauto|right; eexists; reflexivity].
Qed.

Lemma reads_are_allowed (st : state_choice) (cs : list call) :
  forallb is_read cs = true -> forallb (allowed_write st) cs = true.
Proof.
  rewrite !forallb_forall. intros H c Hin. specialize (H c Hin).
  destruct c; try discriminate H; now destruct st.
Qed.

Lemma reads_send_name (n : string) (cs : list call) :
  forallb is_read cs = true -> Forall (sends_name n) cs.
Proof.
  rewrite forallb_forall, Forall_forall. intros H c Hin.
  specialize (H c Hin). destruct c; try discriminate H; exact I.
Qed.

(** An invocation issues reads and then either fails on the fetch or on a
    lookup, or decides on the subnet fetched and the data prepared, which
    is filed under the name asked for. *)
Lemma run_outcome (p : params) (s : R) :
  exists reads,
    forallb is_read reads = true
    /\ ((snd (run R theforeman organizations_equal locations_equal p s)
         = World s reads
         /\ ((exists e,
                fst (run R theforeman organizations_equal locations_equal p s)
                = FailJson (fetch_failure e))
             \/ exists ref msg,
                  In ref (references p)
                  /\ failed_lookup R theforeman s msg ref
                  /\ fst (run R theforeman organizations_equal
                              locations_equal p s)
                     = FailJson msg))
        \/ exists subnet data,
             dict_lookup data "name" = Some (VStr (name p))
             /\ run R theforeman organizations_equal locations_equal p s
                = converge R theforeman organizations_equal locations_equal
                           p subnet data (World s reads)).
Proof.
  pose proof (current_subnet_calls R theforeman [("name", VStr (name p))]
                (World s [])) as (Hr1 & gets & Hc1 & Hg).
  pose proof (current_subnet_outcome [("name", VStr (name p))] (World s []))
    as Ho1.
  destruct (current_subnet R theforeman [("name", VStr (name p))] (World s []))
    as [o1 [s1 c1]] eqn:Hcur. simpl in Hr1, Hc1, Ho1. subst s1 c1.
  assert (Hreads1 : forallb is_read
                      (SearchSubnet [("name", VStr (name p))] :: gets) = true).
  { simpl. now apply fetches_are_reads. }
  destruct Ho1 as [[subnet ->]|[e ->]].
  - pose proof (desired_data_reading R theforeman s p
                  [("name", VStr (name p))]
                  (World s (SearchSubnet [("name", VStr (name p))] :: gets))
                  eq_refl) as (Hr2 & (lookups & Hc2 & Hl) & Ho2).
    pose proof (desired_data_returns p [("name", VStr (name p))]) as Hret.
    destruct (desired_data R theforeman p [("name", VStr (name p))]
                (World s (SearchSubnet [("name", VStr (name p))] :: gets)))
      as [o2 [s2 c2]] eqn:Hdes. simpl in Hr2, Hc2, Ho2. subst s2 c2.
    exists ((SearchSubnet [("name", VStr (name p))] :: gets) ++ lookups)%list.
    split.
    { rewrite forallb_app, Hreads1. now rewrite (lookups_are_reads _ Hl). }
    destruct o2 as [data|msg|e]; simpl in Ho2.
    + right. exists subnet, data. split.
      * destruct (Hret data _ _ Hdes) as (Hkeep & _).
        rewrite Hkeep; [reflexivity| |reflexivity|reflexivity].
        simpl. intuition discriminate.
      * unfold run, ensure, bind. now rewrite Hcur, Hdes.
    + left.
      assert (Hrun : run R theforeman organizations_equal locations_equal p s
                     = (FailJson msg,
                        World s ((SearchSubnet [("name", VStr (name p))] :: gets)
                                 ++ lookups)%list)).
      { unfold run, ensure, bind. now rewrite Hcur, Hdes. }
      rewrite Hrun. split; [reflexivity|]. right.
      apply Exists_exists in Ho2. destruct Ho2 as (ref & Hin & Hfail).
      exists ref, msg. auto.
    + contradiction.
  - exists (SearchSubnet [("name", VStr (name p))] :: gets).
    split; [exact Hreads1|]. left.
    assert (Hrun : run R theforeman organizations_equal locations_equal p s
                   = (FailJson (fetch_failure e),
                      World s (SearchSubnet [("name", VStr (name p))] :: gets))).
    { unfold run, ensure, bind. now rewrite Hcur. }
    rewrite Hrun. split; [reflexivity|]. left. exists e. reflexivity.
Qed.

(** X9: an invocation that fails fails in one of three ways, with the
    message of that way: fetching the subnet raised ("Could not get
    subnet"), or looking a named reference up found nothing or raised, in
    both cases before any mutating call and with the remote system as it
    was; or the one mutating call it sent, allowed for the state asked for,
    raised ("Could not create / delete / update subnet"). *)
Theorem failure_taxonomy (p : params) (s : R) (msg : message) (w : world R) :
  run R theforeman organizations_equal locations_equal p s
  = (FailJson msg, w) ->
  (remote w = s
   /\ filter mutating (calls w) = []
   /\ ((exists e, msg = fetch_failure e)
       \/ exists ref,
            In ref (references p) /\ failed_lookup R theforeman s msg ref))
  \/ exists c e,
       msg = write_failure c e
       /\ filter mutating (calls w) = [c]
       /\ allowed_write (state p) c = true.
Proof.
  intros H.
  destruct (run_outcome p s) as (reads & Hreads & [[Hw Ho]|Hd]).
  - rewrite H in Hw, Ho. simpl in Hw, Ho. subst w. left.
    split; [reflexivity|]. split; [now apply reads_do_not_mutate|].
    destruct Ho as [[e He]|(ref & msg' & Hin & Hfail & He)].
    + left. exists e. congruence.
    + right. exists ref. split; [exact Hin|]. congruence.
  - destruct Hd as (subnet & data & _ & Hrun). rewrite Hrun in H.
    destruct (converge_outcome p subnet data (World s reads))
      as [[_ Ho]|(c & Hc & Hm & Ha & _ & Ho)]; rewrite H in *; simpl in *.
    + destruct Ho as [Ho|[e Ho]]; discriminate Ho.
    + right. destruct Ho as [[record Ho]|[e Ho]]; [discriminate Ho|].
      exists c, e. split; [congruence|]. split; [|exact Ha].
      rewrite Hc. apply filter_mutating_snoc; [|exact Hm].
      now apply reads_do_not_mutate.
Qed.

(** X10: the changed flag tells the truth about the calls: an invocation
    that returns changed = true has sent exactly one mutating call; one that
    returns changed = false, or that ends in an uncaught exception, has sent
    none and left the remote system as it was. *)
Theorem changed_flag_truthful (p : params) (s : R) :
  match fst (run R theforeman organizations_equal locations_equal p s) with
  | Return (true, _) =>
      exists c,
        filter mutating
          (calls (snd (run R theforeman organizations_equal locations_equal
                           p s)))
        = [c]
  | Return (false, _) | Uncaught _ =>
      filter mutating
        (calls (snd (run R theforeman organizations_equal locations_equal p s)))
      = []
      /\ remote (snd (run R theforeman organizations_equal locations_equal p s))
         = s
  | FailJson _ => True
  end.
Proof.
  destruct (run_outcome p s) as (reads & Hreads & [[Hw Ho]|Hd]).
  - destruct Ho as [[e ->]|(ref & msg & _ & _ & ->)]; exact I.
  - destruct Hd as (subnet & data & _ & ->).
    destruct (converge_outcome p subnet data (World s reads))
      as [[Hw Ho]|(c & Hc & Hm & _ & _ & Ho)].
    + rewrite Hw. simpl.
      destruct Ho as [->|[e ->]];
        (split; [now apply reads_do_not_mutate|reflexivity]).
    + rewrite Hc.
      destruct Ho as [[record ->]|[e ->]]; [|exact I].
      exists c. apply filter_mutating_snoc; [|exact Hm].
      now apply reads_do_not_mutate.
Qed.

(** X11: the state asked for decides the kind of the mutating call: with
    state present an invocation never sends a delete, with state absent it
    never sends a create or an update. *)
Theorem writes_match_state (p : params) (s : R) :
  forallb (allowed_write (state p))
          (calls (snd (run R theforeman organizations_equal locations_equal
                           p s)))
  = true.
Proof.
  destruct (run_outcome p s) as (reads & Hreads & [[-> _]|Hd]).
  - simpl. now apply reads_are_allowed.
  - destruct Hd as (subnet & data & _ & ->).
    destruct (converge_outcome p subnet data (World s reads))
      as [[-> _]|(c & -> & _ & Ha & _)].
    + simpl. now apply reads_are_allowed.
    + rewrite forallb_app. simpl.
      now rewrite (reads_are_allowed _ _ Hreads), Ha.
Qed.

(** X12: whatever an invocation creates or updates, the data it sends is
    filed under the name asked for. *)
Theorem writes_send_name (p : params) (s : R) :
  Forall (sends_name (name p))
         (calls (snd (run R theforeman organizations_equal locations_equal
                          p s))).
Proof.
  destruct (run_outcome p s) as (reads & Hreads & [[-> _]|Hd]).
  - simpl. now apply reads_send_name.
  - destruct Hd as (subnet & data & Hname & ->).
    destruct (converge_outcome p subnet data (World s reads))
      as [[-> _]|(c & -> & _ & _ & Hcarries & _)].
    + simpl. now apply reads_send_name.
    + apply Forall_app. split; [now apply reads_send_name|].
      constructor; [|constructor].
      destruct c; simpl in *; try exact I; now subst.
Qed.


(** X14: the data prepared for an invocation carries organization_ids
    only when a non-empty list of organizations was given, and location_ids
    only when a non-empty list of locations was given. *)
Theorem associations_sent_when_given (p : params) (data' : dict)
    (w w' : world R) :
  desired_data R theforeman p [("name", VStr (name p))] w = (Return data', w') ->
  (if truthy (of_list (organizations p))
   then exists ids, dict_lookup data' "organization_ids" = Some ids
   else dict_lookup data' "organization_ids" = None)
  /\ (if truthy (of_list (locations p))
      then exists ids, dict_lookup data' "location_ids" = Some ids
      else dict_lookup data' "location_ids" = None).
Proof using theforeman.
  intros H. apply desired_data_returns in H. destruct H as (_ & Ho & Hl).
  split; [exact Ho|exact Hl].
Qed.

End Outcomes.

(** ** The further properties on the in-memory server *)

(** X2, at the record of a domain given as the reference. *)
Lemma search_data_copies_dict_witness :
  search_data_of (VDict (Memory.domain 1 "foo.example.com"))
  = Memory.domain 1 "foo.example.com".
Proof.
  apply search_data_copies_dict. repeat constructor; simpl; intuition discriminate.
Defined.

(** X3, at the one domain the server knows. *)
Lemma get_resources_returns_witness :
  remote (World Memory.empty_server
                [SearchResource "domains" [("name", VStr "foo.example.com")]])
  = remote (World Memory.empty_server [])
  /\ calls (World Memory.empty_server
                  [SearchResource "domains" [("name", VStr "foo.example.com")]])
     = (calls (World Memory.empty_server [])
        ++ map search_call (map (pair "domains") [VStr "foo.example.com"]))%list
  /\ Forall2 (found_by Memory.client (remote (World Memory.empty_server [])))
             (map (pair "domains") [VStr "foo.example.com"])
             [Memory.domain 1 "foo.example.com"].
Proof.
  apply (get_resources_returns Memory.store Memory.client "domains"
           [VStr "foo.example.com"] (World Memory.empty_server [])).
  reflexivity.
Defined.

(** X4, at a list whose second domain the server does not know: the third
    is never searched. *)
Lemma get_resources_stops_at_first_failure_witness :
  exists before spec after,
    [VStr "foo.example.com"; VStr "bar.example.com"; VStr "baz.example.com"]
    = (before ++ spec :: after)%list
    /\ Forall (resolved Memory.store Memory.client
                        (remote (World Memory.empty_server [])))
              (map (pair "domains") before)
    /\ failed_lookup Memory.store Memory.client
                     (remote (World Memory.empty_server []))
                     (not_found_message "domains" (VStr "bar.example.com"))
                     ("domains", spec)
    /\ remote (World Memory.empty_server
                     [SearchResource "domains" [("name", VStr "foo.example.com")];
                      SearchResource "domains" [("name", VStr "bar.example.com")]])
       = remote (World Memory.empty_server [])
    /\ calls (World Memory.empty_server
                    [SearchResource "domains" [("name", VStr "foo.example.com")];
                     SearchResource "domains" [("name", VStr "bar.example.com")]])
       = (calls (World Memory.empty_server [])
          ++ map search_call (map (pair "domains") (before ++ [spec])))%list.
Proof.
  apply (get_resources_stops_at_first_failure Memory.store Memory.client
           "domains"
           [VStr "foo.example.com"; VStr "bar.example.com";
            VStr "baz.example.com"]
           (World Memory.empty_server [])).
  reflexivity.
Defined.

(** X5, at the documented subnet with a domain and a DNS proxy. *)
Lemma prepare_data_copies_parameters_witness :
  exists (data' : dict) (w' : world Memory.store),
    Memory.prepare Memory.proxied_subnet = (Return data', w')
    /\ (forall key, In key scalar_keys ->
                    dict_lookup data' key
                    = Some (get (module_params Memory.proxied_subnet) key))
    /\ dict_lookup data' "from" = Some (of_str (ip_from Memory.proxied_subnet))
    /\ dict_lookup data' "to" = Some (of_str (ip_to Memory.proxied_subnet))
    /\ (forall key, ~ In key prepared_keys ->
                    dict_lookup data' key
                    = dict_lookup [("name", VStr "MySubnet")] key).
Proof.
  eexists. eexists. split; [vm_compute; reflexivity|].
  eapply (prepare_data_copies_parameters Memory.store Memory.client
            Memory.proxied_subnet [("name", VStr "MySubnet")] _
            (World Memory.empty_server [])).
  vm_compute. reflexivity.
Defined.

(** X6, at the same subnet: the DNS proxy is found, with identifier 7. *)
Lemma prepare_data_resolves_proxies_witness :
  exists (data' : dict) (w' : world Memory.store),
    Memory.prepare Memory.proxied_subnet = (Return data', w')
    /\ dict_lookup data' "dns_id" = Some (VInt 7)
    /\ proxy_id_sent Memory.client Memory.empty_server Memory.proxied_subnet
                     data' "dns".
Proof.
  eexists. eexists. split; [vm_compute; reflexivity|].
  split; [vm_compute; reflexivity|].
  eapply (prepare_data_resolves_proxies Memory.store Memory.client
            Memory.proxied_subnet [("name", VStr "MySubnet")] _
            (World Memory.empty_server []));
    [vm_compute; reflexivity|simpl; auto].
Defined.

(** X7, at the same subnet: the domain is replaced by its record. *)
Lemma prepare_data_resolves_domains_witness :
  exists (data' : dict) (w' : world Memory.store),
    Memory.prepare Memory.proxied_subnet = (Return data', w')
    /\ if truthy (of_list (domains Memory.proxied_subnet))
       then exists rs,
              Forall2 (found_by Memory.client Memory.empty_server)
                      (map (pair "domains")
                           (elements (of_list (domains Memory.proxied_subnet))))
                      rs
              /\ dict_lookup data' "domains" = Some (VList (map VDict rs))
       else dict_lookup data' "domains"
            = Some (of_list (domains Memory.proxied_subnet)).
Proof.
  eexists. eexists. split; [vm_compute; reflexivity|].
  eapply (prepare_data_resolves_domains Memory.store Memory.client
            Memory.proxied_subnet [("name", VStr "MySubnet")] _
            (World Memory.empty_server [])).
  vm_compute. reflexivity.
Defined.

(** X8, at the same subnet: the domain is searched, then the DNS proxy;
    the TFTP proxy, given as the empty string, is not. *)
Lemma prepare_data_lookups_in_order_witness :
  exists (data' : dict) (w' : world Memory.store),
    Memory.prepare Memory.proxied_subnet = (Return data', w')
    /\ calls w'
       = [SearchResource "domains" [("name", VStr "foo.example.com")];
          SearchResource "smart_proxies" [("name", VStr "proxy.example.com")]]
    /\ remote w' = remote (World Memory.empty_server [])
    /\ calls w'
       = (calls (World Memory.empty_server [])
          ++ map search_call
               ((if truthy (of_list (domains Memory.proxied_subnet))
                 then map (pair "domains")
                          (elements (of_list (domains Memory.proxied_subnet)))
                 else [])
                ++ flat_map (proxy_reference Memory.proxied_subnet)
                            ["dns"; "dhcp"; "tftp"; "discovery"]))%list.
Proof.
  eexists. eexists. split; [vm_compute; reflexivity|].
  split; [vm_compute; reflexivity|].
  eapply (prepare_data_lookups_in_order Memory.store Memory.client
            Memory.proxied_subnet [("name", VStr "MySubnet")]).
  vm_compute. reflexivity.
Defined.

(** X9, at the documented subnet with a domain the server does not know. *)
Lemma failure_taxonomy_witness :
  exists (msg : message) (w : world Memory.store),
    Memory.run_ensure (Memory.my_subnet present (Some [VStr "bar.example.com"]))
                      Memory.empty_server
    = (FailJson msg, w)
    /\ ((remote w = Memory.empty_server
         /\ filter mutating (calls w) = []
         /\ ((exists e, msg = fetch_failure e)
             \/ exists ref,
                  In ref (references
                            (Memory.my_subnet present
                                              (Some [VStr "bar.example.com"])))
                  /\ failed_lookup Memory.store Memory.client
                                   Memory.empty_server msg ref))
        \/ exists c e,
             msg = write_failure c e
             /\ filter mutating (calls w) = [c]
             /\ allowed_write
                  (state (Memory.my_subnet present
                                           (Some [VStr "bar.example.com"]))) c
                = true).
Proof.
  eexists. eexists. split; [vm_compute; reflexivity|].
  eapply (failure_taxonomy Memory.store Memory.client
            (Memory.ids_equal "organization_ids" "organizations")
            (Memory.ids_equal "location_ids" "locations")
            (Memory.my_subnet present (Some [VStr "bar.example.com"]))
            Memory.empty_server).
  vm_compute. reflexivity.
Defined.


(** X14, at the documented subnet, for which neither organizations nor
    locations are given. *)
Lemma associations_sent_when_given_witness :
  exists (data' : dict) (w' : world Memory.store),
    desired_data Memory.store Memory.client Memory.proxied_subnet
                 [("name", VStr "MySubnet")] (World Memory.empty_server [])
    = (Return data', w')
    /\ (if truthy (of_list (organizations Memory.proxied_subnet))
        then exists ids, dict_lookup data' "organization_ids" = Some ids
        else dict_lookup data' "organization_ids" = None)
    /\ (if truthy (of_list (locations Memory.proxied_subnet))
        then exists ids, dict_lookup data' "location_ids" = Some ids
        else dict_lookup data' "location_ids" = None).
Proof.
  eexists. eexists. split; [vm_compute; reflexivity|].
  eapply (associations_sent_when_given Memory.store Memory.client
            Memory.proxied_subnet _ (World Memory.empty_server [])).
  vm_compute. reflexivity.
Defined.

(** X1, at two records whose domains have different names. *)
Lemma domains_equal_answers_witness :
  domains_equal
    [("domains", VList [VDict (Memory.domain 1 "a.example.com");
                        VDict (Memory.domain 2 "b.example.com")])]
    [("domains", VList [VDict (Memory.domain 3 "c.example.com")])]
  = Val true.
Proof.
  apply (proj1 (domains_equal_answers _ _)). reflexivity.
Defined.

(** ** Where the decision table as the specification words it fails *)

(** C2 (the claim as stated fails): with no subnet of that name on the
    server and the state present, an invocation that names a domain the
    server does not know ends in the not-found failure after two reads,
    without a creation; and where the client may not write, the creation
    raises and the invocation ends in the failure "Could not create subnet"
    instead of changed = true. *)
Lemma missing_subnet_not_always_created :
  search_subnet Memory.client [("name", VStr "MySubnet")] Memory.empty_server
  = Returned None
  /\ Memory.run_ensure (Memory.my_subnet present Memory.unknown_domain)
                       Memory.empty_server
     = (FailJson (not_found_message "domains" (VStr "bar.example.com")),
        World Memory.empty_server
              [SearchSubnet [("name", VStr "MySubnet")];
               SearchResource "domains" [("name", VStr "bar.example.com")]])
  /\ fst (Memory.run_on Memory.refusing
                        (Memory.my_subnet present Memory.with_domain)
                        Memory.empty_server)
     = FailJson (Format "Could not create subnet: {0}"
                        [("0", VStr "403 Forbidden")]).
Proof. repeat split; vm_compute; reflexivity. Qed.

(** C3 (the claim as stated fails): with the subnet on the server and the
    state absent, an invocation that names a domain the server does not
    know ends in the not-found failure after three reads, without a
    deletion; and where the client may not write, the deletion raises and
    the invocation ends in the failure "Could not delete subnet". *)
Lemma existing_subnet_not_always_deleted :
  search_subnet Memory.client [("name", VStr "MySubnet")] Memory.busy_server
  = Returned (Some Memory.existing_subnet)
  /\ Memory.run_ensure (Memory.my_subnet absent Memory.unknown_domain)
                       Memory.busy_server
     = (FailJson (not_found_message "domains" (VStr "bar.example.com")),
        World Memory.busy_server
              [SearchSubnet [("name", VStr "MySubnet")]; GetSubnet (VInt 1);
               SearchResource "domains" [("name", VStr "bar.example.com")]])
  /\ Memory.run_on Memory.refusing (Memory.my_subnet absent None)
                   Memory.busy_server
     = (FailJson (Format "Could not delete subnet: {0}"
                         [("0", VStr "403 Forbidden")]),
        World Memory.busy_server
              [SearchSubnet [("name", VStr "MySubnet")]; GetSubnet (VInt 1);
               DeleteSubnet (VInt 1)]).
Proof. repeat split; vm_compute; reflexivity. Qed.

(** C4 (the claim as stated fails): with the subnet on the server and the
    state present, an invocation that names a domain the server does not
    know ends in the not-found failure: it neither returns changed = false
    nor updates; where the client may not write, the update raises and the
    invocation ends in the failure "Could not update subnet"; and on the
    server that holds the subnet as created without domains, the comparison
    raises and the invocation sends no update. *)
Lemma existing_subnet_neither_kept_nor_updated :
  Memory.run_ensure (Memory.my_subnet present Memory.unknown_domain)
                    Memory.busy_server
  = (FailJson (not_found_message "domains" (VStr "bar.example.com")),
     World Memory.busy_server
           [SearchSubnet [("name", VStr "MySubnet")]; GetSubnet (VInt 1);
            SearchResource "domains" [("name", VStr "bar.example.com")]])
  /\ fst (Memory.run_on Memory.refusing
                        (Memory.my_subnet present Memory.with_domain)
                        Memory.busy_server)
     = FailJson (Format "Could not update subnet: {0}"
                        [("0", VStr "403 Forbidden")])
  /\ Memory.run_ensure (Memory.my_subnet present None) Memory.synced_server
     = (Uncaught TypeError,
        World Memory.synced_server
              [SearchSubnet [("name", VStr "MySubnet")]; GetSubnet (VInt 1)]).
Proof. repeat split; vm_compute; reflexivity. Qed.


(** C10 (the claim as stated fails): with no subnet of that name on the
    server and the state absent, an invocation that names a domain the
    server does not know ends in the not-found failure instead of
    returning changed = false. *)
Lemma absent_missing_subnet_can_fail :
  search_subnet Memory.client [("name", VStr "MySubnet")] Memory.empty_server
  = Returned None
  /\ Memory.run_ensure (Memory.my_subnet absent Memory.unknown_domain)
                       Memory.empty_server
     = (FailJson (not_found_message "domains" (VStr "bar.example.com")),
        World Memory.empty_server
              [SearchSubnet [("name", VStr "MySubnet")];
               SearchResource "domains" [("name", VStr "bar.example.com")]]).
Proof. repeat split; vm_compute; reflexivity. Qed.
